(** * MD_OnePin: the PRI side of the OnePin single-wire link

    A shallow embedding of [MD_OnePin.h], [MD_OnePin_Protocol.h] and
    [MD_OnePin.cpp].  The class methods become computations in a small state
    monad over a [World] that holds the object's members and the board the
    Arduino primitives act on; every primitive call is appended to a trace.
    Fixed-width C integers are [Z] with the wrap-around written out. *)

From Stdlib Require Import ZArith List Bool Lia.
Import ListNotations.
Open Scope Z_scope.

(** ** Fixed-width integers *)

Definition u8 (x : Z) : Z := x mod 2 ^ 8.
Definition u16 (x : Z) : Z := x mod 2 ^ 16.
Definition u32 (x : Z) : Z := x mod 2 ^ 32.

(** Width of C's [int]: 16 bits on the AVR boards, 32 bits on the ARM and
    ESP ones.  It decides how a [uint16_t - uint16_t] difference reaches
    [delayMicroseconds(unsigned int)]. *)
Inductive IntModel : Type := Int16 | Int32.

Definition uint_bits (im : IntModel) : Z :=
  match im with Int16 => 16 | Int32 => 32 end.

(** [nominal - correction] on two [uint16_t] operands, as passed to
    [delayMicroseconds].  With a 16-bit [int] both operands promote to
    [unsigned int] and the difference wraps modulo 2^16; with a 32-bit [int]
    they promote to [int], the difference may be negative, and the conversion
    to the [unsigned int] parameter wraps modulo 2^32. *)
Definition delay_arg (im : IntModel) (nominal correction : Z) : Z :=
  (nominal - correction) mod 2 ^ uint_bits im.

(** ** MD_OnePin_Protocol.h: timing values in microseconds *)

Definition BPP_PRI : Z := 32.
Definition BPP_SEC : Z := 8.

Definition OPT : Z := 80.

Definition OPT_RST_SIGNAL : Z := u16 (5 * OPT).
Definition OPT_RST_PRESENCE : Z := u16 ((3 * OPT) / 2).
Definition OPT_RST_PRS_SAMPLE : Z := OPT.
Definition OPT_RST_END : Z := u16 ((3 * OPT) / 2).

Definition OPT_WR1_SIGNAL : Z := u16 (OPT / 2).
Definition OPT_WR1_PAUSE : Z := u16 (OPT - OPT_WR1_SIGNAL).
Definition OPT_WR1_DETECT : Z := OPT.

Definition OPT_WR0_SIGNAL : Z := u16 ((3 * OPT) / 2).
Definition OPT_WR0_DETECT : Z := u16 (2 * OPT).
Definition OPT_WR0_PAUSE : Z := u16 ((2 * OPT) - OPT_WR0_SIGNAL).

Definition OPT_RD_INIT : Z := u16 ((5 * OPT) / 2).
Definition OPT_RD_DETECT : Z := u16 (3 * OPT).
Definition OPT_RD0_SIGNAL : Z := OPT.
Definition OPT_RD_SAMPLE : Z := u16 (OPT_RD0_SIGNAL / 2).
Definition OPT_RD_PAUSE : Z := OPT.

(** ** The board: Arduino's pin and timing primitives *)

Inductive Level : Type := LOW | HIGH.
Inductive Mode : Type := INPUT | OUTPUT | INPUT_PULLUP.

Definition Level_eqb (a b : Level) : bool :=
  match a, b with LOW, LOW | HIGH, HIGH => true | _, _ => false end.

(** One entry per primitive call, in call order. *)
Inductive Event : Type :=
| EvPinMode (pin : Z) (m : Mode)
| EvDigitalWrite (pin : Z) (v : Level)
| EvDigitalRead (pin : Z) (v : Level)
| EvDelay (us : Z)
| EvMicros (t : Z).

(** A pin has a direction and a port latch.  The latch is the level driven
    when the pin is an output. *)
Record PinState : Type := mkPin { mode : Mode; latch : Level }.

Record Board : Type := mkBoard {
  pins : Z -> PinState;
  reads : nat;            (* number of digitalRead calls so far *)
  ticks : nat;            (* number of micros calls so far *)
  trace : list Event
}.

(** What the object cannot control: the width of [int], the level the wire
    shows at the k-th input sample (decided by SEC and the pull-up), the
    value of the microsecond counter at the k-th reading, and whether the
    core keeps the pull-up enable in the port latch (AVR does: selecting
    INPUT_PULLUP sets the latch bit, selecting INPUT clears it). *)
Record Host : Type := mkHost {
  int_model : IntModel;
  line_level : nat -> Level;
  clock_us : nat -> Z;
  pullup_in_latch : bool
}.

(** ** MD_OnePin.h: the class members *)

Record MD_OnePin : Type := mkOnePin {
  _pin : Z;
  _presence : bool;
  _bppPri : Z;
  _bppSec : Z;
  _switchTime : Z;
  _writeTime : Z
}.

Record World : Type := mkWorld { self : MD_OnePin; board : Board }.

(** ** A state monad over the world *)

Definition M (A : Type) : Type := World -> A * World.

Definition ret {A} (a : A) : M A := fun w => (a, w).
Definition bind {A B} (c : M A) (k : A -> M B) : M B :=
  fun w => let (a, w') := c w in k a w'.

Notation "x <- c ;; k" := (bind c (fun x => k))
  (at level 61, c at next level, right associativity).
Notation "c ;; k" := (bind c (fun _ => k))
  (at level 61, right associativity).

Definition member {A} (f : MD_OnePin -> A) : M A := fun w => (f (self w), w).

Definition with_presence (b : bool) (o : MD_OnePin) : MD_OnePin :=
  mkOnePin (_pin o) b (_bppPri o) (_bppSec o) (_switchTime o) (_writeTime o).

Definition with_switchTime (t : Z) (o : MD_OnePin) : MD_OnePin :=
  mkOnePin (_pin o) (_presence o) (_bppPri o) (_bppSec o) t (_writeTime o).

Definition with_writeTime (t : Z) (o : MD_OnePin) : MD_OnePin :=
  mkOnePin (_pin o) (_presence o) (_bppPri o) (_bppSec o) (_switchTime o) t.

Definition assign (f : MD_OnePin -> MD_OnePin) : M unit :=
  fun w => (tt, mkWorld (f (self w)) (board w)).

Definition set_presence (b : bool) : M unit := assign (with_presence b).
Definition set_switchTime (t : Z) : M unit := assign (with_switchTime t).
Definition set_writeTime (t : Z) : M unit := assign (with_writeTime t).

Definition upd (f : Z -> PinState) (p : Z) (s : PinState) : Z -> PinState :=
  fun q => if q =? p then s else f q.

Fixpoint repeat_do (n : nat) (body : M unit) : M unit :=
  match n with
  | O => ret tt
  | S k => body ;; repeat_do k body
  end.

Section Primitives.

Variable h : Host.

Definition pinMode (pin : Z) (m : Mode) : M unit := fun w =>
  let b := board w in
  let old := pins b pin in
  let l := match m with
           | OUTPUT => latch old
           | INPUT_PULLUP => if pullup_in_latch h then HIGH else latch old
           | INPUT => if pullup_in_latch h then LOW else latch old
           end in
  (tt, mkWorld (self w)
         (mkBoard (upd (pins b) pin (mkPin m l)) (reads b) (ticks b)
                  (trace b ++ [EvPinMode pin m]))).

Definition digitalWrite (pin : Z) (v : Level) : M unit := fun w =>
  let b := board w in
  let old := pins b pin in
  (tt, mkWorld (self w)
         (mkBoard (upd (pins b) pin (mkPin (mode old) v)) (reads b) (ticks b)
                  (trace b ++ [EvDigitalWrite pin v]))).

(** An output pin reads back what it drives; an input pin shows the wire. *)
Definition digitalRead (pin : Z) : M Level := fun w =>
  let b := board w in
  let v := match mode (pins b pin) with
           | OUTPUT => latch (pins b pin)
           | _ => line_level h (reads b)
           end in
  (v, mkWorld (self w)
        (mkBoard (pins b) (S (reads b)) (ticks b)
                 (trace b ++ [EvDigitalRead pin v]))).

Definition delayMicroseconds (us : Z) : M unit := fun w =>
  let b := board w in
  (tt, mkWorld (self w)
         (mkBoard (pins b) (reads b) (ticks b) (trace b ++ [EvDelay us]))).

Definition micros : M Z := fun w =>
  let b := board w in
  let t := u32 (clock_us h (ticks b)) in
  (t, mkWorld (self w)
        (mkBoard (pins b) (reads b) (S (ticks b)) (trace b ++ [EvMicros t]))).

(** ** MD_OnePin.cpp *)

Definition SET_TO_INPUT : M unit :=
  pin <- member _pin ;; pinMode pin INPUT_PULLUP.

Definition SET_TO_OUTPUT : M unit :=
  pin <- member _pin ;; pinMode pin OUTPUT.

Definition OP_SIGNAL (active pause : Z) : M unit :=
  pin <- member _pin ;;
  wt <- member _writeTime ;;
  digitalWrite pin LOW ;;
  delayMicroseconds (delay_arg (int_model h) active wt) ;;
  digitalWrite pin HIGH ;;
  if negb (pause =? 0)
  then delayMicroseconds (delay_arg (int_model h) pause wt)
  else ret tt.

Definition begin : M unit :=
  start <- micros ;;
  repeat_do 64 (SET_TO_OUTPUT ;; SET_TO_INPUT) ;;
  now <- micros ;;
  set_switchTime (u16 (Z.shiftr (u32 (now - start)) 7)) ;;
  SET_TO_OUTPUT ;;
  start <- micros ;;
  pin <- member _pin ;;
  repeat_do 128 (digitalWrite pin HIGH ;; digitalWrite pin LOW) ;;
  now <- micros ;;
  set_writeTime (u16 (Z.shiftr (u32 (now - start)) 8)) ;;
  digitalWrite pin HIGH.

Definition resetComm : M bool :=
  pin <- member _pin ;;
  st <- member _switchTime ;;
  SET_TO_OUTPUT ;;
  OP_SIGNAL OPT_RST_SIGNAL 0 ;;
  SET_TO_INPUT ;;
  delayMicroseconds (delay_arg (int_model h) OPT_RST_PRS_SAMPLE st) ;;
  v <- digitalRead pin ;;
  set_presence (Level_eqb v LOW) ;;
  SET_TO_OUTPUT ;;
  delayMicroseconds (delay_arg (int_model h) OPT_RST_END st) ;;
  member _presence.

(** The body of [write]'s loop runs for i = 0 .. _bppPri - 1; [n] counts the
    iterations left and [data] is shifted right once per iteration. *)
Fixpoint write_loop (n : nat) (data : Z) : M unit :=
  match n with
  | O => ret tt
  | S k =>
      (if negb (Z.land data 1 =? 0)
       then OP_SIGNAL OPT_WR1_SIGNAL OPT_WR1_PAUSE
       else OP_SIGNAL OPT_WR0_SIGNAL OPT_WR0_PAUSE) ;;
      write_loop k (Z.shiftr data 1)
  end.

Definition write (data : Z) (noReset : bool) : M bool :=
  let data := u32 data in
  (if negb noReset then resetComm ;; ret tt else ret tt) ;;
  presence <- member _presence ;;
  (if noReset || presence
   then bpp <- member _bppPri ;; write_loop (Z.to_nat bpp) data
   else ret tt) ;;
  member _presence.

(** The body of [read]'s loop; [mask] is shifted left once per iteration in
    32-bit arithmetic. *)
Fixpoint read_loop (n : nat) (mask packet : Z) : M Z :=
  match n with
  | O => ret packet
  | S k =>
      pin <- member _pin ;;
      st <- member _switchTime ;;
      OP_SIGNAL OPT_RD_INIT 0 ;;
      SET_TO_INPUT ;;
      delayMicroseconds (delay_arg (int_model h) OPT_RD_SAMPLE st) ;;
      v <- digitalRead pin ;;
      let packet := if Level_eqb v HIGH then Z.lor packet mask else packet in
      SET_TO_OUTPUT ;;
      delayMicroseconds (delay_arg (int_model h) OPT_RD_PAUSE st) ;;
      read_loop k (u32 (Z.shiftl mask 1)) packet
  end.

Definition read (noReset : bool) : M Z :=
  (if negb noReset then resetComm ;; ret tt else ret tt) ;;
  presence <- member _presence ;;
  if negb noReset && negb presence
  then ret 4294967295
  else bpp <- member _bppSec ;; read_loop (Z.to_nat bpp) 1 0.

Definition isPresent : M bool := member _presence.

End Primitives.

(** The constructor stores its [uint8_t] arguments and clears [_presence];
    [_switchTime] and [_writeTime] are left uninitialised, so their contents
    [st0] and [wt0] are whatever the storage held. *)
Definition MD_OnePin_new (pin bppPri bppSec : Z) (st0 wt0 : Z) : MD_OnePin :=
  mkOnePin (u8 pin) false (u8 bppPri) (u8 bppSec) (u16 st0) (u16 wt0).

(** ** Slots: the protocol-level reading of a trace *)

Inductive Slot : Type :=
| SReset (present : bool)
| SWrite (bit : bool)
| SRead (bit : bool).

Definition is_reset (s : Slot) : bool :=
  match s with SReset _ => true | _ => false end.

Definition is_data (s : Slot) : bool := negb (is_reset s).

Definition count_slots (f : Slot -> bool) (ss : list Slot) : nat :=
  length (filter f ss).

(** The bits carried by the Write slots of a slot sequence, in order. *)
Fixpoint written_bits (ss : list Slot) : list bool :=
  match ss with
  | [] => []
  | SWrite b :: r => b :: written_bits r
  | _ :: r => written_bits r
  end.

(** A bit sequence received LSB first, as a number. *)
Fixpoint decode_lsb (bs : list bool) : Z :=
  match bs with
  | [] => 0
  | b :: r => Z.b2z b + 2 * decode_lsb r
  end.

Section Slots.

Variable im : IntModel.
Variable o : MD_OnePin.

(** The signal primitive of the protocol description: a timed low pulse,
    then an optional high hold. *)
Definition pull (active pause : Z) : list Event :=
  [EvDigitalWrite (_pin o) LOW;
   EvDelay (delay_arg im active (_writeTime o));
   EvDigitalWrite (_pin o) HIGH]
  ++ (if pause =? 0 then []
      else [EvDelay (delay_arg im pause (_writeTime o))]).

(** The primitive calls that make up one slot. *)
Definition slot_events (s : Slot) : list Event :=
  match s with
  | SReset p =>
      [EvPinMode (_pin o) OUTPUT]
      ++ pull OPT_RST_SIGNAL 0
      ++ [EvPinMode (_pin o) INPUT_PULLUP;
          EvDelay (delay_arg im OPT_RST_PRS_SAMPLE (_switchTime o));
          EvDigitalRead (_pin o) (if p then LOW else HIGH);
          EvPinMode (_pin o) OUTPUT;
          EvDelay (delay_arg im OPT_RST_END (_switchTime o))]
  | SWrite true => pull OPT_WR1_SIGNAL OPT_WR1_PAUSE
  | SWrite false => pull OPT_WR0_SIGNAL OPT_WR0_PAUSE
  | SRead b =>
      pull OPT_RD_INIT 0
      ++ [EvPinMode (_pin o) INPUT_PULLUP;
          EvDelay (delay_arg im OPT_RD_SAMPLE (_switchTime o));
          EvDigitalRead (_pin o) (if b then HIGH else LOW);
          EvPinMode (_pin o) OUTPUT;
          EvDelay (delay_arg im OPT_RD_PAUSE (_switchTime o))]
  end.

Definition render (ss : list Slot) : list Event := flat_map slot_events ss.

Definition on_pin (ps : list Z) : bool := forallb (Z.eqb (_pin o)) ps.

Definition timed (nominal correction us : Z) : bool :=
  us =? delay_arg im nominal correction.

(** Reads a trace back as a slot sequence; [None] when the trace is not a
    sequence of well-timed slots on the object's pin. *)
Fixpoint parse (es : list Event) : option (list Slot) :=
  match es with
  | [] => Some []
  | EvPinMode p0 OUTPUT :: EvDigitalWrite p1 LOW :: EvDelay d1
      :: EvDigitalWrite p2 HIGH :: EvPinMode p3 INPUT_PULLUP :: EvDelay d2
      :: EvDigitalRead p4 v :: EvPinMode p5 OUTPUT :: EvDelay d3 :: rest =>
      if on_pin [p0; p1; p2; p3; p4; p5]
         && timed OPT_RST_SIGNAL (_writeTime o) d1
         && timed OPT_RST_PRS_SAMPLE (_switchTime o) d2
         && timed OPT_RST_END (_switchTime o) d3
      then option_map (cons (SReset (Level_eqb v LOW))) (parse rest)
      else None
  | EvDigitalWrite p1 LOW :: EvDelay d1 :: EvDigitalWrite p2 HIGH
      :: EvDelay d2 :: rest =>
      if on_pin [p1; p2]
         && timed OPT_WR1_SIGNAL (_writeTime o) d1
         && timed OPT_WR1_PAUSE (_writeTime o) d2
      then option_map (cons (SWrite true)) (parse rest)
      else if on_pin [p1; p2]
              && timed OPT_WR0_SIGNAL (_writeTime o) d1
              && timed OPT_WR0_PAUSE (_writeTime o) d2
      then option_map (cons (SWrite false)) (parse rest)
      else None
  | EvDigitalWrite p1 LOW :: EvDelay d1 :: EvDigitalWrite p2 HIGH
      :: EvPinMode p3 INPUT_PULLUP :: EvDelay d2 :: EvDigitalRead p4 v
      :: EvPinMode p5 OUTPUT :: EvDelay d3 :: rest =>
      if on_pin [p1; p2; p3; p4; p5]
         && timed OPT_RD_INIT (_writeTime o) d1
         && timed OPT_RD_SAMPLE (_switchTime o) d2
         && timed OPT_RD_PAUSE (_switchTime o) d3
      then option_map (cons (SRead (Level_eqb v HIGH))) (parse rest)
      else None
  | _ => None
  end.

End Slots.

(** The primitive calls made between two worlds of one run. *)
Definition new_events (w w' : World) : list Event :=
  skipn (length (trace (board w))) (trace (board w')).

(** The slots emitted between two worlds, read with the calibration the
    object had in the first. *)
Definition slots_of (h : Host) (w w' : World) : option (list Slot) :=
  parse (int_model h) (self w) (new_events w w').

(** The wire is idle when the object's pin is a driven output at HIGH. *)
Definition idle (w : World) : Prop :=
  pins (board w) (_pin (self w)) = mkPin OUTPUT HIGH.

(** ** Packets *)

(** The bits [read]'s loop assembles from the levels it samples. *)
Fixpoint accumulate (mask packet : Z) (bs : list bool) : Z :=
  match bs with
  | [] => packet
  | b :: r =>
      accumulate (u32 (Z.shiftl mask 1))
                 (if b then Z.lor packet mask else packet) r
  end.

(** Bit i of a packet as [write]'s loop tests it: [(data >> i) & 1]. *)
Definition bit_of (v : Z) (i : nat) : bool :=
  negb (Z.land (Z.shiftr v (Z.of_nat i)) 1 =? 0).

Definition packet_bits (n : nat) (v : Z) : list bool :=
  map (bit_of v) (seq 0 n).

(** The slots one [write] call is expected to emit, given the presence it
    works with. *)
Definition write_slots (o : MD_OnePin) (noReset present : bool) (data : Z)
  : list Slot :=
  (if noReset then [] else [SReset present])
  ++ (if noReset || present
      then map SWrite (packet_bits (Z.to_nat (_bppPri o)) (u32 data))
      else []).

(** The slots of a [read] call that went on to sample the bits [bs]. *)
Definition read_slots (noReset present : bool) (bs : list bool) : list Slot :=
  (if noReset then [] else [SReset present]) ++ map SRead bs.

(** The presence a call works with: the stored one when the reset is
    omitted, the one its own Reset/Presence slot records otherwise. *)
Definition presence_seen (h : Host) (noReset : bool) (w : World) : bool :=
  if noReset then _presence (self w) else fst (resetComm h w).

(** ** Calibration *)

(** The calibration results [begin] stores, from the four clock readings
    starting at reading number [k]. *)
Definition measured_switchTime (h : Host) (k : nat) : Z :=
  u16 (Z.shiftr (u32 (u32 (clock_us h (S k)) - u32 (clock_us h k))) 7).

Definition measured_writeTime (h : Host) (k : nat) : Z :=
  u16 (Z.shiftr
         (u32 (u32 (clock_us h (S (S (S k)))) - u32 (clock_us h (S (S k)))))
         8).

(** The primitive calls of one [begin]. *)
Definition calibration_events (h : Host) (pin : Z) (k n1 n2 : nat)
  : list Event :=
  [EvMicros (u32 (clock_us h k))]
  ++ concat (repeat [EvPinMode pin OUTPUT; EvPinMode pin INPUT_PULLUP] n1)
  ++ [EvMicros (u32 (clock_us h (S k)));
      EvPinMode pin OUTPUT;
      EvMicros (u32 (clock_us h (S (S k))))]
  ++ concat (repeat [EvDigitalWrite pin HIGH; EvDigitalWrite pin LOW] n2)
  ++ [EvMicros (u32 (clock_us h (S (S (S k)))));
      EvDigitalWrite pin HIGH].

Definition begin_events (h : Host) (pin : Z) (k : nat) : list Event :=
  calibration_events h pin k 64 128.

(** [begin] with its two loop counts left open, for induction. *)
Definition begin_loops (h : Host) (n1 n2 : nat) : M unit :=
  start <- micros h ;;
  repeat_do n1 (SET_TO_OUTPUT h ;; SET_TO_INPUT h) ;;
  now <- micros h ;;
  set_switchTime (u16 (Z.shiftr (u32 (now - start)) 7)) ;;
  SET_TO_OUTPUT h ;;
  start <- micros h ;;
  pin <- member _pin ;;
  repeat_do n2 (digitalWrite pin HIGH ;; digitalWrite pin LOW) ;;
  now <- micros h ;;
  set_writeTime (u16 (Z.shiftr (u32 (now - start)) 8)) ;;
  digitalWrite pin HIGH.

(** ** Delay arguments *)

(** The arguments of the [delayMicroseconds] calls of a trace, in order. *)
Definition delays_of (es : list Event) : list Z :=
  flat_map (fun e => match e with EvDelay us => [us] | _ => [] end) es.

(** The delay a clamping implementation would ask for. *)
Definition clamped_delay (nominal correction : Z) : Z :=
  Z.max 0 (nominal - correction).

(** The delay arguments of one slot as the engine computes them. *)
Definition slot_delays (im : IntModel) (o : MD_OnePin) (s : Slot) : list Z :=
  match s with
  | SReset _ =>
      [delay_arg im OPT_RST_SIGNAL (_writeTime o);
       delay_arg im OPT_RST_PRS_SAMPLE (_switchTime o);
       delay_arg im OPT_RST_END (_switchTime o)]
  | SWrite true =>
      [delay_arg im OPT_WR1_SIGNAL (_writeTime o);
       delay_arg im OPT_WR1_PAUSE (_writeTime o)]
  | SWrite false =>
      [delay_arg im OPT_WR0_SIGNAL (_writeTime o);
       delay_arg im OPT_WR0_PAUSE (_writeTime o)]
  | SRead _ =>
      [delay_arg im OPT_RD_INIT (_writeTime o);
       delay_arg im OPT_RD_SAMPLE (_switchTime o);
       delay_arg im OPT_RD_PAUSE (_switchTime o)]
  end.

(** ** The public interface as a sequence of calls *)

Inductive Call : Type :=
| CallBegin
| CallWrite (data : Z) (noReset : bool)
| CallRead (noReset : bool)
| CallIsPresent.

Definition run_call (h : Host) (c : Call) (w : World) : World :=
  match c with
  | CallBegin => snd (begin h w)
  | CallWrite data noReset => snd (write h data noReset w)
  | CallRead noReset => snd (read h noReset w)
  | CallIsPresent => snd (isPresent w)
  end.

Definition run_calls (h : Host) (cs : list Call) (w : World) : World :=
  fold_left (fun w c => run_call h c w) cs w.

(** ** Footprint of the engine *)

(** The bit the k-th input sample of the host stands for in a Read slot. *)
Definition line_bit (h : Host) (k : nat) : bool :=
  Level_eqb (line_level h k) HIGH.

(** The bits of [n] consecutive input samples starting at sample [k]. *)
Definition sampled_bits (h : Host) (k n : nat) : list bool :=
  map (fun i => line_bit h (k + i)) (seq 0 n).

(** Every pin but the object's own is in the same state in both worlds. *)
Definition same_other_pins (w w' : World) : Prop :=
  forall q : Z, q <> _pin (self w) ->
    pins (board w') q = pins (board w) q.

(** The members a call may not touch once calibration is done. *)
Definition same_config (o o' : MD_OnePin) : Prop :=
  _pin o' = _pin o /\ _bppPri o' = _bppPri o /\ _bppSec o' = _bppSec o /\
  _switchTime o' = _switchTime o /\ _writeTime o' = _writeTime o.

Definition is_begin (c : Call) : bool :=
  match c with CallBegin => true | _ => false end.

Definition is_delay (e : Event) : bool :=
  match e with EvDelay _ => true | _ => false end.

Definition is_sample (e : Event) : bool :=
  match e with EvDigitalRead _ _ => true | _ => false end.

Definition is_clock (e : Event) : bool :=
  match e with EvMicros _ => true | _ => false end.

Definition is_switch (e : Event) : bool :=
  match e with EvPinMode _ _ => true | _ => false end.

Definition total (xs : list Z) : Z := fold_right Z.add 0 xs.

(** Nominal length of a slot in microseconds, from the protocol table. *)
Definition slot_nominal (s : Slot) : Z :=
  match s with
  | SReset _ => OPT_RST_SIGNAL + OPT_RST_PRS_SAMPLE + OPT_RST_END
  | SWrite true => OPT_WR1_SIGNAL + OPT_WR1_PAUSE
  | SWrite false => OPT_WR0_SIGNAL + OPT_WR0_PAUSE
  | SRead _ => OPT_RD_INIT + OPT_RD_SAMPLE + OPT_RD_PAUSE
  end.

(** The calibration values subtracted over one slot. *)
Definition slot_correction (o : MD_OnePin) (s : Slot) : Z :=
  match s with
  | SWrite _ => 2 * _writeTime o
  | SReset _ | SRead _ => _writeTime o + 2 * _switchTime o
  end.

(** ** MD_OnePin_Protocol.h: the SEC packet type and the table as a
    function of the slot *)

Inductive SecPacketType : Type := SecUint8 | SecUint16 | SecUint32.

Definition sec_type_bits (t : SecPacketType) : Z :=
  match t with SecUint8 => 8 | SecUint16 => 16 | SecUint32 => 32 end.

(** The conditional chain that selects [opSecPacket_t] from BPP_SEC; [None]
    is the [#error] branch. *)
Definition opSecPacket_t (bpp_sec : Z) : option SecPacketType :=
  if (0 <? bpp_sec) && (bpp_sec <=? 8) then Some SecUint8
  else if bpp_sec <=? 16 then Some SecUint16
  else if bpp_sec <=? 32 then Some SecUint32
  else None.

(** [k * x] for an [int] constant and a [uint16_t]: computed in 16-bit
    [unsigned int] where [int] has 16 bits, in [int] otherwise. *)
Definition int_times (im : IntModel) (k x : Z) : Z :=
  match im with Int16 => u16 (k * x) | Int32 => k * x end.

Definition int_minus (im : IntModel) (a b : Z) : Z :=
  match im with Int16 => u16 (a - b) | Int32 => a - b end.

Record SlotTable : Type := mkSlotTable {
  t_rst_signal : Z; t_rst_presence : Z; t_rst_prs_sample : Z; t_rst_end : Z;
  t_wr1_signal : Z; t_wr1_pause : Z; t_wr1_detect : Z;
  t_wr0_signal : Z; t_wr0_detect : Z; t_wr0_pause : Z;
  t_rd_init : Z; t_rd_detect : Z; t_rd0_signal : Z; t_rd_sample : Z;
  t_rd_pause : Z
}.

(** The header's initialisers with the value of OPT left open. *)
Definition slot_table (im : IntModel) (T : Z) : SlotTable :=
  let wr1_signal := u16 (T / 2) in
  let wr0_signal := u16 (int_times im 3 T / 2) in
  let rd0_signal := T in
  mkSlotTable
    (u16 (int_times im 5 T))
    (u16 (int_times im 3 T / 2))
    T
    (u16 (int_times im 3 T / 2))
    wr1_signal
    (u16 (int_minus im T wr1_signal))
    T
    wr0_signal
    (u16 (int_times im 2 T))
    (u16 (int_minus im (int_times im 2 T) wr0_signal))
    (u16 (int_times im 5 T / 2))
    (u16 (int_times im 3 T))
    rd0_signal
    (u16 (rd0_signal / 2))
    T.

(** ** Sample hosts and worlds *)

(** A board straight after power-up: every pin a plain input, nothing
    logged. *)
Definition power_on (o : MD_OnePin) : World :=
  mkWorld o (mkBoard (fun _ => mkPin INPUT LOW) 0 0 []).

(** An AVR host with no SEC on the wire: the pull-up keeps the line HIGH. *)
Definition host_no_sec : Host :=
  mkHost Int16 (fun _ => HIGH) (fun k => 600 * Z.of_nat k) true.

(** An AVR host whose SEC asserts presence at the first sample and then
    answers the bits 0,0,1,0,1,1,0,1 (0xB4, LSB first). *)
Definition host_sec_b4 : Host :=
  mkHost Int16
    (fun k => match k with
              | 3 | 5 | 6 | 8 => HIGH
              | _ => LOW
              end%nat)
    (fun k => 600 * Z.of_nat k) true.

(** An AVR host so slow that 256 pin writes take 10496 microseconds. *)
Definition host_slow : Host :=
  mkHost Int16 (fun _ => HIGH)
    (fun k => match k with 3%nat => 10496 | _ => 0 end) true.

(** A SEC-less AVR host whose clock jumps by 2^23 microseconds between the
    fifth and sixth readings. *)
Definition host_stalled : Host :=
  mkHost Int16 (fun _ => LOW)
    (fun k => match k with 5%nat => 8388608 | _ => 0 end) true.

(** An AVR host whose SEC is present and answers only one bits. *)
Definition host_all_ones : Host :=
  mkHost Int16 (fun k => match k with O => LOW | _ => HIGH end)
    (fun k => 600 * Z.of_nat k) true.

(** An AVR host whose microsecond counter overflows during calibration. *)
Definition host_wrapping : Host :=
  mkHost Int16 (fun _ => HIGH)
    (fun k => match k with
              | O => 4294967000
              | S O => 4294967000 + 640
              | S (S O) => 4294968000
              | _ => 4294968000 + 1024
              end) true.

(** * Proofs *)

(** ** Reading a rendered slot sequence back *)

Lemma protocol_values :
  OPT_RST_SIGNAL = 400 /\ OPT_RST_PRS_SAMPLE = 80 /\ OPT_RST_END = 120 /\
  OPT_WR1_SIGNAL = 40 /\ OPT_WR1_PAUSE = 40 /\
  OPT_WR0_SIGNAL = 120 /\ OPT_WR0_PAUSE = 40 /\
  OPT_RD_INIT = 200 /\ OPT_RD_SAMPLE = 40 /\ OPT_RD_PAUSE = 80.
Proof. repeat split; reflexivity. Qed.

Lemma write_pause_nonzero :
  (OPT_WR1_PAUSE =? 0) = false /\ (OPT_WR0_PAUSE =? 0) = false.
Proof. split; reflexivity. Qed.

Lemma write_signals_distinct (im : IntModel) (wt : Z) :
  (delay_arg im OPT_WR0_SIGNAL wt =? delay_arg im OPT_WR1_SIGNAL wt) = false.
Proof.
  apply Z.eqb_neq. unfold delay_arg.
  change OPT_WR0_SIGNAL with 120. change OPT_WR1_SIGNAL with 40.
  destruct im; cbn [uint_bits]; intro E.
  - change (2 ^ 16) with 65536 in E. Z.div_mod_to_equations. lia.
  - change (2 ^ 32) with 4294967296 in E. Z.div_mod_to_equations. lia.
Qed.

Lemma level_low_flag (p : bool) : Level_eqb (if p then LOW else HIGH) LOW = p.
Proof. destruct p; reflexivity. Qed.

Lemma level_high_flag (b : bool) : Level_eqb (if b then HIGH else LOW) HIGH = b.
Proof. destruct b; reflexivity. Qed.

Lemma parse_slot (im : IntModel) (o : MD_OnePin) (s : Slot) (es : list Event) :
  parse im o (slot_events im o s ++ es) = option_map (cons s) (parse im o es).
Proof.
  destruct s as [p | [|] | b]; unfold slot_events, pull;
    try change (OPT_WR1_PAUSE =? 0) with false;
    try change (OPT_WR0_PAUSE =? 0) with false;
    cbn [Z.eqb app parse on_pin forallb]; unfold timed;
    rewrite ?Z.eqb_refl, ?write_signals_distinct, ?level_low_flag,
      ?level_high_flag;
    reflexivity.
Qed.

Lemma parse_render (im : IntModel) (o : MD_OnePin) (ss : list Slot) :
  parse im o (render im o ss) = Some ss.
Proof.
  induction ss as [| s ss IH]; [reflexivity |].
  unfold render in *. cbn [flat_map]. rewrite parse_slot, IH. reflexivity.
Qed.

Lemma new_events_app (w w' : World) (es : list Event) :
  trace (board w') = trace (board w) ++ es -> new_events w w' = es.
Proof.
  intros E. unfold new_events. rewrite E, skipn_app, skipn_all, Nat.sub_diag.
  reflexivity.
Qed.

(** ** What each slot of the engine does *)

Lemma upd_same (f : Z -> PinState) (p : Z) (s : PinState) : upd f p s p = s.
Proof. unfold upd. rewrite Z.eqb_refl. reflexivity. Qed.

Section Engine.

Variable h : Host.

Ltac run_block :=
  unfold resetComm, OP_SIGNAL, SET_TO_INPUT, SET_TO_OUTPUT, bind, ret, member,
    pinMode, digitalWrite, digitalRead, delayMicroseconds, set_presence,
    assign;
  repeat
    (progress
       (change (0 =? 0) with true;
        cbn [negb fst snd self board pins reads ticks trace mode latch];
        rewrite ?upd_same)).

Lemma OP_SIGNAL_run (active pause : Z) (w : World) :
  let w' := snd (OP_SIGNAL h active pause w) in
  self w' = self w /\
  trace (board w') =
    trace (board w) ++ pull (int_model h) (self w) active pause /\
  pins (board w') (_pin (self w)) =
    mkPin (mode (pins (board w) (_pin (self w)))) HIGH.
Proof.
  destruct w as [o b]. unfold pull. cbv zeta. run_block.
  destruct (pause =? 0); run_block;
    repeat split; rewrite <- ?app_assoc; reflexivity.
Qed.

Lemma resetComm_run (w : World) :
  let r := fst (resetComm h w) in
  let w' := snd (resetComm h w) in
  self w' = with_presence r (self w) /\
  trace (board w') =
    trace (board w) ++ slot_events (int_model h) (self w) (SReset r) /\
  idle w'.
Proof.
  destruct w as [o b]. unfold idle, slot_events, pull. cbv zeta.
  change (0 =? 0) with true. run_block.
  set (v := line_level h (reads b)).
  repeat split.
  - rewrite <- !app_assoc. cbn [app with_presence _pin _switchTime _writeTime].
    destruct v; reflexivity.
  - destruct (pullup_in_latch h); reflexivity.
Qed.

Lemma read_loop_run (n : nat) : forall (mask packet : Z) (w : World),
  let r := fst (read_loop h n mask packet w) in
  let w' := snd (read_loop h n mask packet w) in
  exists bs : list bool,
    length bs = n /\
    r = accumulate mask packet bs /\
    self w' = self w /\
    trace (board w') =
      trace (board w) ++ render (int_model h) (self w) (map SRead bs) /\
    (idle w \/ n <> O -> idle w').
Proof.
  induction n as [| n IH]; intros mask packet w; cbv zeta.
  - exists []. cbn. rewrite app_nil_r. repeat split. intros [I | N]; [exact I | congruence].
  - destruct w as [o b]. cbn [read_loop]. run_block.
    change (0 =? 0) with true. run_block.
    set (v := line_level h (reads b)).
    match goal with
    | |- context [read_loop h n ?m ?p ?w1] =>
        destruct (IH m p w1) as (bs & Hlen & Hr & Hself & Htr & Hidle)
    end.
    exists (Level_eqb v HIGH :: bs).
    split; [cbn; congruence |].
    split; [rewrite Hr; reflexivity |].
    split; [rewrite Hself; reflexivity |].
    split.
    + rewrite Htr. cbn [trace board self map render flat_map slot_events pull].
      change (0 =? 0) with true.
      rewrite <- !app_assoc. cbn [app]. destruct v; reflexivity.
    + intros _. apply Hidle. left. unfold idle. cbn [board pins self].
      rewrite upd_same. destruct (pullup_in_latch h); reflexivity.
Qed.

Lemma packet_bits_S (n : nat) (v : Z) :
  packet_bits (S n) v =
    negb (Z.land v 1 =? 0) :: packet_bits n (Z.shiftr v 1).
Proof.
  unfold packet_bits. cbn [seq map]. f_equal.
  rewrite <- seq_shift, map_map. apply map_ext. intros i.
  unfold bit_of. rewrite Z.shiftr_shiftr by lia.
  replace (1 + Z.of_nat i) with (Z.of_nat (S i)) by lia. reflexivity.
Qed.

Lemma render_presence (im : IntModel) (o : MD_OnePin) (p : bool)
      (ss : list Slot) :
  render im (with_presence p o) ss = render im o ss.
Proof. reflexivity. Qed.

Lemma write_loop_run (n : nat) : forall (data : Z) (w : World),
  let w' := snd (write_loop h n data w) in
  self w' = self w /\
  trace (board w') =
    trace (board w)
    ++ render (int_model h) (self w) (map SWrite (packet_bits n data)) /\
  (idle w -> idle w').
Proof.
  induction n as [| n IH]; intros data w; cbv zeta.
  - cbn. rewrite app_nil_r. auto.
  - rewrite packet_bits_S. cbn [write_loop map render flat_map]. unfold bind.
    set (c := if negb (Z.land data 1 =? 0)
              then OP_SIGNAL h OPT_WR1_SIGNAL OPT_WR1_PAUSE
              else OP_SIGNAL h OPT_WR0_SIGNAL OPT_WR0_PAUSE).
    assert (Hc : self (snd (c w)) = self w /\
                 trace (board (snd (c w))) =
                   trace (board w)
                   ++ slot_events (int_model h) (self w)
                        (SWrite (negb (Z.land data 1 =? 0))) /\
                 (idle w -> idle (snd (c w)))).
    { subst c. destruct (negb (Z.land data 1 =? 0));
        match goal with
        | |- context [OP_SIGNAL h ?a ?p w] =>
            destruct (OP_SIGNAL_run a p w) as (Hs & Ht & Hp)
        end;
        (split; [exact Hs |]); (split; [exact Ht |]);
        intros I; unfold idle in *; rewrite Hs, Hp, I; reflexivity. }
    destruct (c w) as [u w1]. cbn [snd] in Hc.
    destruct Hc as (Hs & Ht & Hi).
    destruct (IH (Z.shiftr data 1) w1) as (Hs' & Ht' & Hi').
    split; [congruence |]. split; [| auto].
    rewrite Ht', Ht, Hs, <- app_assoc. reflexivity.
Qed.

Lemma write_run (data : Z) (noReset : bool) (w : World) :
  let r := fst (write h data noReset w) in
  let w' := snd (write h data noReset w) in
  let present := presence_seen h noReset w in
  r = present /\
  self w' = (if noReset then self w else with_presence present (self w)) /\
  trace (board w') =
    trace (board w)
    ++ render (int_model h) (self w)
         (write_slots (self w) noReset present data) /\
  (idle w \/ noReset = false -> idle w').
Proof.
  cbv zeta. unfold write, write_slots, presence_seen.
  destruct noReset; cbn [negb orb]; unfold bind, ret, member.
  - destruct (write_loop_run (Z.to_nat (_bppPri (self w))) (u32 data) w)
      as (Hs & Ht & Hi).
    destruct (write_loop h _ _ w) as [u w1]. cbn [fst snd] in *.
    rewrite Hs. repeat split; [exact Ht |].
    intros [I | N]; [auto | discriminate].
  - destruct (resetComm_run w) as (Hs & Ht & Hi).
    destruct (resetComm h w) as [p w1]. cbn [fst snd] in *.
    assert (Hp : _presence (self w1) = p) by (rewrite Hs; reflexivity).
    rewrite Hp. destruct p.
    + destruct (write_loop_run (Z.to_nat (_bppPri (self w1))) (u32 data) w1)
        as (Hs' & Ht' & Hi').
      destruct (write_loop h _ _ w1) as [u w2]. cbn [fst snd] in *.
      rewrite Hs', Hs. repeat split; [| auto].
      rewrite Ht', Ht, Hs, <- app_assoc. reflexivity.
    + cbn [fst snd]. rewrite Hs. repeat split; [| auto].
      rewrite Ht. cbn [app render flat_map]. reflexivity.
Qed.

Lemma read_run (noReset : bool) (w : World) :
  let r := fst (read h noReset w) in
  let w' := snd (read h noReset w) in
  let present := presence_seen h noReset w in
  self w' = (if noReset then self w else with_presence present (self w)) /\
  (idle w \/ noReset = false -> idle w') /\
  if negb noReset && negb present
  then r = 4294967295 /\
       trace (board w') =
         trace (board w) ++ render (int_model h) (self w) [SReset false]
  else exists bs : list bool,
         length bs = Z.to_nat (_bppSec (self w)) /\
         r = accumulate 1 0 bs /\
         trace (board w') =
           trace (board w)
           ++ render (int_model h) (self w) (read_slots noReset present bs).
Proof.
  cbv zeta. unfold read, read_slots, presence_seen.
  destruct noReset; cbn [negb andb]; unfold bind, ret, member.
  - destruct (read_loop_run (Z.to_nat (_bppSec (self w))) 1 0 w)
      as (bs & Hl & Hr & Hs & Ht & Hi).
    destruct (read_loop h _ _ _ w) as [r w1]. cbn [fst snd] in *.
    split; [exact Hs |]. split; [intros [I | N]; [auto | discriminate] |].
    exists bs. auto.
  - destruct (resetComm_run w) as (Hs & Ht & Hi).
    destruct (resetComm h w) as [p w1]. cbn [fst snd] in *.
    assert (Hp : _presence (self w1) = p) by (rewrite Hs; reflexivity).
    rewrite Hp. destruct p; cbn [negb fst snd].
    + destruct (read_loop_run (Z.to_nat (_bppSec (self w1))) 1 0 w1)
        as (bs & Hl & Hr & Hs' & Ht' & Hi').
      destruct (read_loop h _ _ _ w1) as [r w2]. cbn [fst snd] in *.
      split; [congruence |]. split; [auto |].
      exists bs. split; [rewrite Hl, Hs; reflexivity |]. split; [exact Hr |].
      rewrite Ht', Ht, Hs, <- app_assoc. reflexivity.
    + split; [exact Hs |]. split; [auto |]. split; [reflexivity |].
      rewrite Ht. cbn [render flat_map]. rewrite app_nil_r. reflexivity.
Qed.

End Engine.

(** ** Packet arithmetic *)

Lemma land_1_mod (v : Z) : Z.land v 1 = v mod 2.
Proof. change 1 with (Z.ones 1). rewrite Z.land_ones by lia. reflexivity. Qed.

Lemma lsb_test (v : Z) : Z.b2z (negb (Z.land v 1 =? 0)) = v mod 2.
Proof.
  rewrite land_1_mod.
  pose proof (Z.mod_pos_bound v 2 ltac:(lia)) as B.
  destruct (v mod 2 =? 0) eqn:E; cbn [negb Z.b2z].
  - apply Z.eqb_eq in E. lia.
  - apply Z.eqb_neq in E. lia.
Qed.

Lemma decode_packet_bits (n : nat) : forall v : Z,
  decode_lsb (packet_bits n v) = v mod 2 ^ Z.of_nat n.
Proof.
  induction n as [| n IH]; intros v.
  - cbn. rewrite Z.mod_1_r. reflexivity.
  - rewrite packet_bits_S. cbn [decode_lsb]. rewrite IH, lsb_test.
    rewrite Z.shiftr_div_pow2 by lia. change (2 ^ 1) with 2.
    rewrite Nat2Z.inj_succ, Z.pow_succ_r by lia.
    rewrite Z.rem_mul_r by lia. reflexivity.
Qed.

Lemma bit_of_testbit (v : Z) (i : nat) : bit_of v i = Z.testbit v (Z.of_nat i).
Proof.
  unfold bit_of. rewrite land_1_mod, Z.shiftr_div_pow2 by lia.
  rewrite Z.testbit_eqb by lia.
  pose proof (Z.mod_pos_bound (v / 2 ^ Z.of_nat i) 2 ltac:(lia)) as B.
  destruct (_ mod 2 =? 0) eqn:E0; destruct (_ mod 2 =? 1) eqn:E1;
    try reflexivity; exfalso;
    rewrite ?Z.eqb_eq, ?Z.eqb_neq in E0, E1; lia.
Qed.

Lemma testbit_u32_pow2 (k i : Z) :
  0 <= k -> Z.testbit (u32 (2 ^ k)) i = (i <? 32) && (k =? i).
Proof.
  intros Hk. unfold u32. rewrite Z.testbit_mod_pow2 by lia.
  rewrite Z.pow2_bits_eqb by lia. reflexivity.
Qed.

Lemma mask_shift (k : Z) :
  0 <= k -> u32 (Z.shiftl (u32 (2 ^ k)) 1) = u32 (2 ^ (k + 1)).
Proof.
  intros Hk. unfold u32. rewrite Z.shiftl_mul_pow2 by lia.
  rewrite Z.mul_mod_idemp_l by lia. rewrite Z.pow_add_r by lia. reflexivity.
Qed.

Lemma accumulate_bits (bs : list bool) : forall k p i : Z,
  0 <= k -> 0 <= i ->
  Z.testbit (accumulate (u32 (2 ^ k)) p bs) i =
    Z.testbit p i
    || ((k <=? i) && (i <? 32) && nth (Z.to_nat (i - k)) bs false).
Proof.
  induction bs as [| b bs IH]; intros k p i Hk Hi; cbn [accumulate].
  - destruct (Z.to_nat (i - k)); cbn [nth];
      rewrite andb_false_r, orb_false_r; reflexivity.
  - rewrite mask_shift, IH by lia.
    assert (Hp : Z.testbit (if b then Z.lor p (u32 (2 ^ k)) else p) i =
                 Z.testbit p i || (b && (i <? 32) && (k =? i))).
    { destruct b; cbn [andb].
      - rewrite Z.lor_spec, testbit_u32_pow2 by lia. reflexivity.
      - rewrite orb_false_r. reflexivity. }
    rewrite Hp.
    destruct (Z.leb_spec k i) as [Hle | Hlt].
    + destruct (Z.eqb_spec k i) as [-> | Hne].
      * rewrite Z.sub_diag. cbn [Z.to_nat nth].
        replace (i + 1 <=? i) with false by (symmetry; apply Z.leb_gt; lia).
        cbn [andb]. rewrite andb_true_r, orb_false_r, andb_comm. reflexivity.
      * replace (k + 1 <=? i) with true by (symmetry; apply Z.leb_le; lia).
        replace (Z.to_nat (i - k)) with (S (Z.to_nat (i - (k + 1)))) by lia.
        cbn [nth andb]. rewrite andb_false_r, orb_false_r. reflexivity.
    + replace (k + 1 <=? i) with false by (symmetry; apply Z.leb_gt; lia).
      replace (k =? i) with false by (symmetry; apply Z.eqb_neq; lia).
      cbn [andb]. rewrite ?andb_false_r, ?orb_false_r. reflexivity.
Qed.

Lemma accumulate_testbit (bs : list bool) (i : nat) :
  Z.testbit (accumulate 1 0 bs) (Z.of_nat i) =
    (i <? 32)%nat && nth i bs false.
Proof.
  change 1 with (u32 (2 ^ 0)). rewrite accumulate_bits by lia.
  rewrite Z.testbit_0_l, Z.sub_0_r, Nat2Z.id. cbn [orb].
  replace (0 <=? Z.of_nat i) with true by (symmetry; apply Z.leb_le; lia).
  cbn [andb]. f_equal.
  destruct (Nat.ltb_spec i 32); [apply Z.ltb_lt | apply Z.ltb_ge]; lia.
Qed.

Lemma decode_lsb_testbit (bs : list bool) : forall i : nat,
  Z.testbit (decode_lsb bs) (Z.of_nat i) = nth i bs false.
Proof.
  induction bs as [| b bs IH]; intros i.
  - cbn [decode_lsb]. rewrite Z.testbit_0_l. destruct i; reflexivity.
  - cbn [decode_lsb]. rewrite Z.add_comm. destruct i as [| i].
    + cbn [Z.of_nat nth]. apply Z.testbit_0_r.
    + rewrite Nat2Z.inj_succ, Z.testbit_succ_r by lia. cbn [nth]. apply IH.
Qed.

(** With at most 32 bits received, the value [read]'s loop assembles is the
    number the sampled bits spell LSB first. *)
Lemma accumulate_decode (bs : list bool) :
  (length bs <= 32)%nat -> accumulate 1 0 bs = decode_lsb bs.
Proof.
  intros Hl. apply Z.bits_inj'. intros n Hn.
  rewrite <- (Z2Nat.id n Hn), accumulate_testbit, decode_lsb_testbit.
  destruct (Nat.ltb_spec (Z.to_nat n) 32) as [| Hge]; [reflexivity |].
  cbn [andb]. symmetry. apply nth_overflow. lia.
Qed.

(** ** Calibration *)

Lemma repeat_do_run (body : M unit) (es : list Event) (P : World -> Prop) :
  (forall w, P w ->
     P (snd (body w)) /\
     trace (board (snd (body w))) = trace (board w) ++ es) ->
  forall (n : nat) (w : World), P w ->
    P (snd (repeat_do n body w)) /\
    trace (board (snd (repeat_do n body w))) =
      trace (board w) ++ concat (repeat es n).
Proof.
  intros Hbody. induction n as [| n IH]; intros w Hw.
  - cbn. rewrite app_nil_r. auto.
  - cbn [repeat_do repeat concat]. unfold bind.
    destruct (Hbody w Hw) as [HP Ht]. destruct (body w) as [u w1].
    cbn [snd] in *. destruct (IH w1 HP) as [HP' Ht'].
    split; [exact HP' |]. rewrite Ht', Ht, <- app_assoc. reflexivity.
Qed.

Lemma begin_unroll (h : Host) : begin h = begin_loops h 64 128.
Proof. unfold begin, begin_loops. apply eq_refl. Qed.


Lemma begin_loops_run (h : Host) (n1 n2 : nat) (w : World) :
  let w' := snd (begin_loops h n1 n2 w) in
  let k := ticks (board w) in
  self w' =
    with_writeTime (measured_writeTime h k)
      (with_switchTime (measured_switchTime h k) (self w)) /\
  trace (board w') =
    trace (board w) ++ calibration_events h (_pin (self w)) k n1 n2 /\
  idle w'.
Proof.
  destruct w as [o b]. cbv zeta. unfold idle, calibration_events.
  destruct (begin_loops h n1 n2 _) as [u w'] eqn:E.
  cbn [snd self board ticks].
  unfold begin_loops, SET_TO_OUTPUT, SET_TO_INPUT, set_switchTime, set_writeTime,
    assign, bind, micros, member, pinMode, digitalWrite in E.
  cbn [self board pins reads ticks trace] in E.
  match type of E with
  | context [repeat_do n1 ?body ?w0] =>
      destruct (repeat_do_run body
                  [EvPinMode (_pin o) OUTPUT; EvPinMode (_pin o) INPUT_PULLUP]
                  (fun w => self w = o /\ ticks (board w) = S (ticks b))
                  ltac:(intros [o1 b1] [Ho Hb]; cbn [self board] in Ho, Hb;
                        subst o1; cbn [snd self board ticks trace];
                        rewrite <- ?app_assoc; auto)
                  n1 w0 (conj eq_refl eq_refl)) as [[Hs1 Hk1] Ht1];
      destruct (repeat_do n1 body w0) as [u1 [o1 b1]]
  end.
  cbn [snd self board ticks trace] in Hs1, Hk1, Ht1, E. subst o1.
  cbn [with_switchTime _pin] in E.
  match type of E with
  | context [repeat_do n2 ?body ?w2] =>
      destruct (repeat_do_run body
                  [EvDigitalWrite (_pin o) HIGH; EvDigitalWrite (_pin o) LOW]
                  (fun w => self w = self w2 /\
                            ticks (board w) = ticks (board w2) /\
                            mode (pins (board w) (_pin o)) = OUTPUT)
                  ltac:(intros [o3 b3] (Ho & Hb & Hm);
                        cbn [self board] in Ho, Hb, Hm;
                        cbn [snd self board ticks trace pins];
                        rewrite ?upd_same; cbn [mode];
                        rewrite <- ?app_assoc; auto)
                  n2 w2
                  ltac:(cbn [self board pins ticks]; rewrite upd_same; auto))
        as [(Hs2 & Hk2 & Hm2) Ht2];
      destruct (repeat_do n2 body w2) as [u2 [o2 b2]]
  end.
  cbn [snd self board ticks trace pins] in Hs2, Hk2, Hm2, Ht2, E. subst o2.
  injection E as _ <-. cbn [self board pins trace _pin with_switchTime].
  rewrite Hk1 in Hk2, Ht2.
  rewrite upd_same, Hm2, Hk2, Hk1, Ht2, Ht1.
  repeat split.
  rewrite <- !app_assoc. reflexivity.
Qed.

Lemma begin_run (h : Host) (w : World) :
  let w' := snd (begin h w) in
  let k := ticks (board w) in
  self w' =
    with_writeTime (measured_writeTime h k)
      (with_switchTime (measured_switchTime h k) (self w)) /\
  trace (board w') = trace (board w) ++ begin_events h (_pin (self w)) k /\
  idle w'.
Proof. rewrite begin_unroll. apply begin_loops_run. Qed.

(** ** Reading the slots of a call off its trace *)

Lemma slots_of_render (h : Host) (w w' : World) (ss : list Slot) :
  trace (board w') =
    trace (board w) ++ render (int_model h) (self w) ss ->
  slots_of h w w' = Some ss.
Proof.
  intros E. unfold slots_of. rewrite (new_events_app _ _ _ E).
  apply parse_render.
Qed.

Lemma filter_data_writes (bs : list bool) :
  filter is_data (map SWrite bs) = map SWrite bs.
Proof. induction bs as [| b bs IH]; cbn; [| rewrite IH]; reflexivity. Qed.

Lemma filter_data_reads (bs : list bool) :
  filter is_data (map SRead bs) = map SRead bs.
Proof. induction bs as [| b bs IH]; cbn; [| rewrite IH]; reflexivity. Qed.

Lemma filter_reset_writes (bs : list bool) :
  filter is_reset (map SWrite bs) = [].
Proof. induction bs as [| b bs IH]; cbn; [| rewrite IH]; reflexivity. Qed.

Lemma filter_reset_reads (bs : list bool) :
  filter is_reset (map SRead bs) = [].
Proof. induction bs as [| b bs IH]; cbn; [| rewrite IH]; reflexivity. Qed.

Lemma written_bits_writes (bs : list bool) :
  written_bits (map SWrite bs) = bs.
Proof. induction bs as [| b bs IH]; cbn; [| rewrite IH]; reflexivity. Qed.

Lemma packet_bits_length (n : nat) (v : Z) : length (packet_bits n v) = n.
Proof. unfold packet_bits. rewrite length_map, length_seq. reflexivity. Qed.

Lemma land_low_mask (v : Z) (n : Z) :
  0 <= n -> Z.land v (Z.shiftl 1 n - 1) = v mod 2 ^ n.
Proof.
  intros Hn. rewrite <- Z.land_ones by lia. unfold Z.ones.
  rewrite Z.sub_1_r. reflexivity.
Qed.

(** ** Absence *)

(** C1: when the Reset/Presence slot of a [write(data, noReset=false)] call
    records no presence, [write] returns false and its trace is that one
    Reset/Presence slot, with no data slot; under the same condition
    [read(noReset=false)] returns 0xFFFFFFFF and emits no Read slot. *)
Theorem absence_short_circuit (h : Host) (w : World) (data : Z) :
  fst (resetComm h w) = false ->
  (fst (write h data false w) = false /\
   slots_of h w (snd (write h data false w)) = Some [SReset false] /\
   option_map (count_slots is_data)
     (slots_of h w (snd (write h data false w))) = Some O) /\
  (fst (read h false w) = 4294967295 /\
   slots_of h w (snd (read h false w)) = Some [SReset false] /\
   option_map (count_slots is_data)
     (slots_of h w (snd (read h false w))) = Some O).
Proof.
  intros Habs. split.
  - destruct (write_run h data false w) as (Hr & _ & Ht & _).
    unfold presence_seen in Hr, Ht. rewrite Habs in Hr, Ht.
    unfold write_slots in Ht. cbn [orb app] in Ht.
    apply slots_of_render in Ht. rewrite Ht. auto.
  - destruct (read_run h false w) as (_ & _ & Hc).
    unfold presence_seen in Hc. rewrite Habs in Hc. cbn [negb andb] in Hc.
    destruct Hc as [Hr Ht]. apply slots_of_render in Ht. rewrite Ht. auto.
Qed.

Lemma absence_short_circuit_witness :
  fst (resetComm host_no_sec (power_on (MD_OnePin_new 2 8 8 0 0))) = false /\
  (fst (write host_no_sec 170 false (power_on (MD_OnePin_new 2 8 8 0 0)))
     = false /\
   slots_of host_no_sec (power_on (MD_OnePin_new 2 8 8 0 0))
     (snd (write host_no_sec 170 false (power_on (MD_OnePin_new 2 8 8 0 0))))
     = Some [SReset false]).
Proof.
  split; [reflexivity |].
  destruct (absence_short_circuit host_no_sec
              (power_on (MD_OnePin_new 2 8 8 0 0)) 170 eq_refl)
    as [(Hr & Hs & _) _].
  exact (conj Hr Hs).
Defined.

(** ** Packets on the wire *)

(** C2: for a 32-bit value [v] and a configured width [_bppPri] in 1..32,
    with presence established by the call's Reset/Presence slot or with
    [noReset] set, [write v] emits exactly [_bppPri] data slots; slot i is a
    Write-1 slot when [(v >> i) & 1] is 1 and a Write-0 slot otherwise, and
    the bits of the emitted slots, read LSB first, are
    [v & ((1 << _bppPri) - 1)]. *)
Theorem write_lsb_first_roundtrip (h : Host) (w : World) (v : Z)
        (noReset : bool) :
  0 <= v < 2 ^ 32 ->
  1 <= _bppPri (self w) <= 32 ->
  noReset = true \/ fst (resetComm h w) = true ->
  exists ss : list Slot,
    slots_of h w (snd (write h v noReset w)) = Some ss /\
    filter is_data ss =
      map (fun i => SWrite (negb (Z.land (Z.shiftr v (Z.of_nat i)) 1 =? 0)))
          (seq 0 (Z.to_nat (_bppPri (self w)))) /\
    count_slots is_data ss = Z.to_nat (_bppPri (self w)) /\
    decode_lsb (written_bits ss) =
      Z.land v (Z.shiftl 1 (_bppPri (self w)) - 1).
Proof.
  intros Hv Hw Hp.
  destruct (write_run h v noReset w) as (_ & _ & Ht & _).
  apply slots_of_render in Ht.
  exists (write_slots (self w) noReset (presence_seen h noReset w) v).
  split; [exact Ht |].
  assert (Hu : u32 v = v) by (apply Z.mod_small; exact Hv).
  assert (Hgo : noReset || presence_seen h noReset w = true).
  { unfold presence_seen. destruct Hp as [-> | Hp]; [reflexivity |].
    destruct noReset; [reflexivity | exact Hp]. }
  unfold write_slots, count_slots. rewrite Hgo, Hu.
  set (n := Z.to_nat (_bppPri (self w))).
  assert (Hd : filter is_data
                 ((if noReset
                   then []
                   else [SReset (presence_seen h noReset w)])
                  ++ map SWrite (packet_bits n v))
               = map SWrite (packet_bits n v)).
  { rewrite filter_app, filter_data_writes. destruct noReset; reflexivity. }
  rewrite Hd. split; [unfold packet_bits; rewrite map_map; reflexivity |].
  split; [rewrite length_map; apply packet_bits_length |].
  assert (Hb : written_bits
                 ((if noReset
                   then []
                   else [SReset (presence_seen h noReset w)])
                  ++ map SWrite (packet_bits n v))
               = packet_bits n v).
  { destruct noReset; cbn [app written_bits]; apply written_bits_writes. }
  rewrite Hb, decode_packet_bits, land_low_mask by lia.
  subst n. rewrite Z2Nat.id by lia. reflexivity.
Qed.

Lemma write_lsb_first_roundtrip_witness :
  (0 <= 172 < 2 ^ 32 /\
   1 <= _bppPri (self (power_on (MD_OnePin_new 2 6 8 0 0))) <= 32 /\
   (true = true \/
    fst (resetComm host_no_sec (power_on (MD_OnePin_new 2 6 8 0 0))) = true))
  /\
  exists ss : list Slot,
    slots_of host_no_sec (power_on (MD_OnePin_new 2 6 8 0 0))
      (snd (write host_no_sec 172 true (power_on (MD_OnePin_new 2 6 8 0 0))))
      = Some ss /\
    filter is_data ss =
      map (fun i => SWrite (negb (Z.land (Z.shiftr 172 (Z.of_nat i)) 1 =? 0)))
          (seq 0 (Z.to_nat
                    (_bppPri (self (power_on (MD_OnePin_new 2 6 8 0 0)))))) /\
    count_slots is_data ss =
      Z.to_nat (_bppPri (self (power_on (MD_OnePin_new 2 6 8 0 0)))) /\
    decode_lsb (written_bits ss) =
      Z.land 172
        (Z.shiftl 1 (_bppPri (self (power_on (MD_OnePin_new 2 6 8 0 0)))) - 1).
Proof.
  split.
  - split; [cbv; split; [discriminate | reflexivity] |].
    split; [cbv; split; discriminate | left; reflexivity].
  - apply (write_lsb_first_roundtrip host_no_sec
             (power_on (MD_OnePin_new 2 6 8 0 0)) 172 true).
    + cbv; split; [discriminate | reflexivity].
    + cbv; split; discriminate.
    + left; reflexivity.
Defined.

(** C3: a [read] that does not return the absence sentinel has performed
    exactly [_bppSec] Read slots (after one Reset/Presence slot that found
    SEC present, unless [noReset]); bit i of the result is the level sampled
    in Read slot i, the mask [1 << i] being kept in 32 bits, and every bit of
    the result at a position at or beyond [_bppSec] is zero. *)
Theorem read_bit_placement (h : Host) (w : World) (noReset : bool) :
  fst (read h noReset w) <> 4294967295 ->
  exists bs : list bool,
    slots_of h w (snd (read h noReset w)) =
      Some ((if noReset then [] else [SReset true]) ++ map SRead bs) /\
    length bs = Z.to_nat (_bppSec (self w)) /\
    (forall i : nat,
        Z.testbit (fst (read h noReset w)) (Z.of_nat i) =
          (i <? 32)%nat && nth i bs false) /\
    (forall i : Z,
        _bppSec (self w) <= i -> Z.testbit (fst (read h noReset w)) i = false).
Proof.
  intros Hne.
  destruct (read_run h noReset w) as (_ & _ & Hc).
  destruct (negb noReset && negb (presence_seen h noReset w)) eqn:Habs.
  - destruct Hc as [Hr _]. contradiction.
  - destruct Hc as (bs & Hl & Hr & Ht).
    exists bs. apply slots_of_render in Ht. unfold read_slots in Ht.
    assert (Hss : (if noReset
                   then []
                   else [SReset (presence_seen h noReset w)])
                  = (if noReset then [] else [SReset true])).
    { destruct noReset; [reflexivity |].
      cbn [negb andb] in Habs. apply negb_false_iff in Habs.
      rewrite Habs. reflexivity. }
    rewrite Hss in Ht. split; [exact Ht |]. split; [exact Hl |].
    rewrite Hr. split; [intros i; apply accumulate_testbit |].
    intros i Hi. destruct (Z.neg_nonneg_cases i) as [Hneg | Hpos].
    + apply Z.testbit_neg_r. exact Hneg.
    + rewrite <- (Z2Nat.id i Hpos), accumulate_testbit.
      rewrite nth_overflow by lia. apply andb_false_r.
Qed.

Lemma read_bit_placement_witness :
  fst (read host_sec_b4 false (power_on (MD_OnePin_new 2 8 8 0 0)))
    <> 4294967295 /\
  exists bs : list bool,
    slots_of host_sec_b4 (power_on (MD_OnePin_new 2 8 8 0 0))
      (snd (read host_sec_b4 false (power_on (MD_OnePin_new 2 8 8 0 0)))) =
      Some ((if false then [] else [SReset true]) ++ map SRead bs) /\
    length bs =
      Z.to_nat (_bppSec (self (power_on (MD_OnePin_new 2 8 8 0 0)))) /\
    (forall i : nat,
        Z.testbit
          (fst (read host_sec_b4 false (power_on (MD_OnePin_new 2 8 8 0 0))))
          (Z.of_nat i) = (i <? 32)%nat && nth i bs false) /\
    (forall i : Z,
        _bppSec (self (power_on (MD_OnePin_new 2 8 8 0 0))) <= i ->
        Z.testbit
          (fst (read host_sec_b4 false (power_on (MD_OnePin_new 2 8 8 0 0))))
          i = false).
Proof.
  assert (Hne : fst (read host_sec_b4 false
                       (power_on (MD_OnePin_new 2 8 8 0 0))) <> 4294967295)
    by (vm_compute; discriminate).
  split; [exact Hne |].
  exact (read_bit_placement host_sec_b4
           (power_on (MD_OnePin_new 2 8 8 0 0)) false Hne).
Defined.

(** ** Delay arguments *)

Lemma delays_of_app (es fs : list Event) :
  delays_of (es ++ fs) = delays_of es ++ delays_of fs.
Proof. unfold delays_of. apply flat_map_app. Qed.

Lemma delays_of_render (im : IntModel) (o : MD_OnePin) (ss : list Slot) :
  delays_of (render im o ss) = flat_map (slot_delays im o) ss.
Proof.
  induction ss as [| s ss IH]; [reflexivity |].
  unfold render in *. cbn [flat_map]. rewrite delays_of_app, IH. f_equal.
  destruct s as [p | [|] | b]; reflexivity.
Qed.

Lemma delay_arg_range (im : IntModel) (nominal correction : Z) :
  delay_arg im (u16 nominal) (u16 correction) =
    if u16 correction <=? u16 nominal
    then u16 nominal - u16 correction
    else 2 ^ uint_bits im + u16 nominal - u16 correction.
Proof.
  unfold delay_arg.
  pose proof (Z.mod_pos_bound nominal (2 ^ 16) ltac:(lia)) as Bn.
  pose proof (Z.mod_pos_bound correction (2 ^ 16) ltac:(lia)) as Bc.
  fold (u16 nominal) in Bn. fold (u16 correction) in Bc.
  assert (Hbits : 2 ^ 16 <= 2 ^ uint_bits im) by (destruct im; cbn; lia).
  destruct (Z.leb_spec (u16 correction) (u16 nominal)) as [Hle | Hgt].
  - apply Z.mod_small. lia.
  - symmetry. apply Z.mod_unique with (q := -1); lia.
Qed.

(** C4, as the code has it: no operation clamps a delay.  The argument of
    every [delayMicroseconds] call of [OP_SIGNAL], [write] and [read] (with
    the Reset/Presence slot they perform) is the nominal slot time minus the
    calibration value computed in [unsigned int] arithmetic: the plain
    difference when the correction does not exceed the nominal time, and the
    difference wrapped around, 2^N + nominal - correction with N the width of
    [unsigned int], when it does. *)
Theorem delay_arguments_wrap (h : Host) (w : World) :
  (forall active pause : Z,
      delays_of (new_events w (snd (OP_SIGNAL h active pause w))) =
        delay_arg (int_model h) active (_writeTime (self w))
        :: (if pause =? 0
            then []
            else [delay_arg (int_model h) pause (_writeTime (self w))])) /\
  (forall (data : Z) (noReset : bool),
      exists ss : list Slot,
        slots_of h w (snd (write h data noReset w)) = Some ss /\
        delays_of (new_events w (snd (write h data noReset w))) =
          flat_map (slot_delays (int_model h) (self w)) ss) /\
  (forall noReset : bool,
      exists ss : list Slot,
        slots_of h w (snd (read h noReset w)) = Some ss /\
        delays_of (new_events w (snd (read h noReset w))) =
          flat_map (slot_delays (int_model h) (self w)) ss) /\
  (forall nominal correction : Z,
      delay_arg (int_model h) (u16 nominal) (u16 correction) =
        if u16 correction <=? u16 nominal
        then u16 nominal - u16 correction
        else 2 ^ uint_bits (int_model h) + u16 nominal - u16 correction).
Proof.
  split; [| split; [| split]].
  - intros active pause.
    destruct (OP_SIGNAL_run h active pause w) as (_ & Ht & _).
    rewrite (new_events_app _ _ _ Ht). unfold pull.
    destruct (pause =? 0); reflexivity.
  - intros data noReset.
    destruct (write_run h data noReset w) as (_ & _ & Ht & _).
    eexists. split; [apply slots_of_render; exact Ht |].
    rewrite (new_events_app _ _ _ Ht). apply delays_of_render.
  - intros noReset.
    destruct (read_run h noReset w) as (_ & _ & Hc).
    destruct (negb noReset && negb (presence_seen h noReset w)).
    + destruct Hc as [_ Ht].
      eexists. split; [apply slots_of_render; exact Ht |].
      rewrite (new_events_app _ _ _ Ht). apply delays_of_render.
    + destruct Hc as (bs & _ & _ & Ht).
      eexists. split; [apply slots_of_render; exact Ht |].
      rewrite (new_events_app _ _ _ Ht). apply delays_of_render.
  - intros nominal correction. apply delay_arg_range.
Qed.

(** C4 fails as stated: on a 16-bit host whose calibration measured
    [_writeTime] = 41, above the 40 microseconds of a Write-1 pulse, a
    one-bit [write 1] passes 65535 to both of its delays, where a clamping
    implementation would pass 0. *)
Lemma delay_clamping_counterexample :
  _writeTime
    (self (snd (begin host_slow (power_on (MD_OnePin_new 2 1 1 0 0))))) = 41 /\
  delays_of
    (new_events
       (snd (begin host_slow (power_on (MD_OnePin_new 2 1 1 0 0))))
       (snd (write host_slow 1 true
               (snd (begin host_slow (power_on (MD_OnePin_new 2 1 1 0 0)))))))
    = [65535; 65535] /\
  [clamped_delay OPT_WR1_SIGNAL 41; clamped_delay OPT_WR1_PAUSE 41] = [0; 0] /\
  delays_of
    (new_events
       (snd (begin host_slow (power_on (MD_OnePin_new 2 1 1 0 0))))
       (snd (write host_slow 1 true
               (snd (begin host_slow (power_on (MD_OnePin_new 2 1 1 0 0)))))))
    <> [clamped_delay OPT_WR1_SIGNAL 41; clamped_delay OPT_WR1_PAUSE 41].
Proof. vm_compute. repeat split. discriminate. Qed.

(** ** Construction *)

(** C5, as the code has it: the constructor validates nothing.  For every
    pin and every pair of widths a [uint8_t] can hold, 0..255, and so for
    every width in 1..32, construction yields an instance that stores
    exactly the given widths, with [_presence] false. *)
Theorem constructor_stores_widths (pin bppPri bppSec st0 wt0 : Z) :
  0 <= bppPri <= 255 ->
  0 <= bppSec <= 255 ->
  _bppPri (MD_OnePin_new pin bppPri bppSec st0 wt0) = bppPri /\
  _bppSec (MD_OnePin_new pin bppPri bppSec st0 wt0) = bppSec /\
  _presence (MD_OnePin_new pin bppPri bppSec st0 wt0) = false.
Proof.
  intros Hp Hs. cbn [MD_OnePin_new _bppPri _bppSec _presence]. unfold u8.
  rewrite !Z.mod_small by (change (2 ^ 8) with 256; lia). auto.
Qed.

Lemma constructor_stores_widths_witness :
  (0 <= 32 <= 255 /\ 0 <= 8 <= 255) /\
  _bppPri (MD_OnePin_new 2 32 8 0 0) = 32 /\
  _bppSec (MD_OnePin_new 2 32 8 0 0) = 8 /\
  _presence (MD_OnePin_new 2 32 8 0 0) = false.
Proof.
  split; [lia |]. apply (constructor_stores_widths 2 32 8 0 0); lia.
Defined.

(** C5 fails as stated: widths 33 and 0 are accepted and stored, and the
    instance is usable: a [write] on it emits 33 Write slots. *)
Lemma constructor_accepts_invalid_width :
  _bppPri (MD_OnePin_new 2 33 0 0 0) = 33 /\
  _bppSec (MD_OnePin_new 2 33 0 0 0) = 0 /\
  option_map (count_slots is_data)
    (slots_of host_no_sec (power_on (MD_OnePin_new 2 33 0 0 0))
       (snd (write host_no_sec 0 true (power_on (MD_OnePin_new 2 33 0 0 0)))))
    = Some 33%nat.
Proof. vm_compute. repeat split. Qed.

(** ** Calibration postcondition *)

(** C6, as the code has it: [begin] reads the clock, performs 64 iterations
    of (set-output, set-input-with-pullup), and stores in [_switchTime] the
    elapsed microseconds (the 32-bit difference of two clock readings)
    divided by 128 and truncated to 16 bits; it then sets the pin to output,
    performs 128 iterations of (drive-high, drive-low), and stores in
    [_writeTime] the elapsed microseconds divided by 256 and truncated to 16
    bits; on return the pin is driven HIGH.  [begin] does not assign
    [_presence]: it keeps the value it had, which is false on an instance
    that has just been constructed. *)
Theorem begin_postcondition (h : Host) (w : World) :
  let w' := snd (begin h w) in
  let k := ticks (board w) in
  let pin := _pin (self w) in
  let t0 := u32 (clock_us h k) in
  let t1 := u32 (clock_us h (S k)) in
  let t2 := u32 (clock_us h (S (S k))) in
  let t3 := u32 (clock_us h (S (S (S k)))) in
  new_events w w' =
    [EvMicros t0]
    ++ concat (repeat [EvPinMode pin OUTPUT; EvPinMode pin INPUT_PULLUP] 64)
    ++ [EvMicros t1; EvPinMode pin OUTPUT; EvMicros t2]
    ++ concat (repeat [EvDigitalWrite pin HIGH; EvDigitalWrite pin LOW] 128)
    ++ [EvMicros t3; EvDigitalWrite pin HIGH] /\
  _switchTime (self w') = (((t1 - t0) mod 2 ^ 32) / 128) mod 2 ^ 16 /\
  _writeTime (self w') = (((t3 - t2) mod 2 ^ 32) / 256) mod 2 ^ 16 /\
  idle w' /\
  _presence (self w') = _presence (self w) /\
  (forall (p bppPri bppSec st0 wt0 : Z) (b : Board),
      _presence
        (self (snd (begin h
                      (mkWorld (MD_OnePin_new p bppPri bppSec st0 wt0) b))))
      = false).
Proof.
  cbv zeta. destruct (begin_run h w) as (Hs & Ht & Hi).
  split; [exact (new_events_app _ _ _ Ht) |].
  rewrite Hs. cbn [_switchTime _writeTime _presence with_writeTime
                   with_switchTime].
  unfold measured_switchTime, measured_writeTime.
  rewrite !Z.shiftr_div_pow2 by lia.
  split; [reflexivity |]. split; [reflexivity |]. split; [exact Hi |].
  split; [reflexivity |].
  intros p bppPri bppSec st0 wt0 b.
  destruct (begin_run h (mkWorld (MD_OnePin_new p bppPri bppSec st0 wt0) b))
    as (Hs' & _). rewrite Hs'. reflexivity.
Qed.

(** C6 fails as stated: an instance that saw SEC present keeps
    [_presence] = true through a later [begin], and when the clock advances
    by 2^23 microseconds during the first loop the elapsed time divided by
    128 is 65536 while [_switchTime] is set to 0. *)
Lemma begin_postcondition_counterexample :
  let w1 := snd (write host_stalled 0 false
                   (snd (begin host_stalled
                           (power_on (MD_OnePin_new 2 8 8 0 0))))) in
  ticks (board w1) = 4%nat /\
  _presence (self w1) = true /\
  _presence (self (snd (begin host_stalled w1))) = true /\
  (u32 (clock_us host_stalled 5) - u32 (clock_us host_stalled 4)) / 128
    = 65536 /\
  _switchTime (self (snd (begin host_stalled w1))) = 0.
Proof. vm_compute. repeat split. Qed.

(** ** Idle wire *)

Lemma run_call_idle (h : Host) (c : Call) (w : World) :
  idle w -> idle (run_call h c w).
Proof.
  intros I. destruct c as [| data noReset | noReset |]; cbn [run_call].
  - exact (proj2 (proj2 (begin_run h w))).
  - destruct (write_run h data noReset w) as (_ & _ & _ & Hi). auto.
  - destruct (read_run h noReset w) as (_ & Hi & _). auto.
  - exact I.
Qed.

Lemma run_calls_cons (h : Host) (c : Call) (cs : list Call) (w : World) :
  run_calls h (c :: cs) w = run_calls h cs (run_call h c w).
Proof. reflexivity. Qed.

Lemma run_calls_idle (h : Host) (cs : list Call) : forall w : World,
  idle w -> idle (run_calls h cs w).
Proof.
  induction cs as [| c cs IH]; intros w I; [exact I |].
  rewrite run_calls_cons. apply IH, run_call_idle, I.
Qed.

(** C7: from any world, once [begin] has run, the pin is a driven output at
    HIGH after every further public call ([begin], [write], [read],
    [isPresent]), whatever the data, the [noReset] flags and the levels
    sampled; a call made with [noReset] = false leaves it so from any world,
    as does the Reset/Presence slot by itself. *)
Theorem idle_invariant (h : Host) (w : World) (cs : list Call) :
  idle (run_calls h (CallBegin :: cs) w) /\
  idle (snd (begin h w)) /\
  (forall data : Z, idle (snd (write h data false w))) /\
  idle (snd (read h false w)) /\
  idle (snd (resetComm h w)).
Proof.
  pose proof (proj2 (proj2 (begin_run h w))) as Hb. cbv zeta in Hb.
  split; [| split; [| split; [| split]]].
  - rewrite run_calls_cons. apply run_calls_idle. unfold run_call. exact Hb.
  - exact Hb.
  - intros data. destruct (write_run h data false w) as (_ & _ & _ & Hi).
    auto.
  - destruct (read_run h false w) as (_ & Hi & _). auto.
  - exact (proj2 (proj2 (resetComm_run h w))).
Qed.

(** ** Reset ordering *)

(** C8: a [write] or [read] call with [noReset] = false emits exactly one
    Reset/Presence slot, and it is the first slot of the call, ahead of every
    data slot; a call with [noReset] = true emits no Reset/Presence slot. *)
Theorem reset_ordering (h : Host) (w : World) (data : Z) :
  (exists (p : bool) (ds : list Slot),
      slots_of h w (snd (write h data false w)) = Some (SReset p :: ds) /\
      count_slots is_reset ds = O /\
      count_slots is_reset (SReset p :: ds) = 1%nat) /\
  (exists (p : bool) (ds : list Slot),
      slots_of h w (snd (read h false w)) = Some (SReset p :: ds) /\
      count_slots is_reset ds = O /\
      count_slots is_reset (SReset p :: ds) = 1%nat) /\
  (exists ds : list Slot,
      slots_of h w (snd (write h data true w)) = Some ds /\
      count_slots is_reset ds = O) /\
  (exists ds : list Slot,
      slots_of h w (snd (read h true w)) = Some ds /\
      count_slots is_reset ds = O).
Proof.
  split; [| split; [| split]].
  - destruct (write_run h data false w) as (_ & _ & Ht & _).
    apply slots_of_render in Ht. unfold write_slots in Ht.
    cbn [app orb] in Ht. eexists. eexists. split; [exact Ht |].
    unfold count_slots. cbn [filter is_reset length].
    destruct (presence_seen h false w);
      rewrite ?filter_reset_writes; split; reflexivity.
  - destruct (read_run h false w) as (_ & _ & Hc).
    destruct (negb false && negb (presence_seen h false w)).
    + destruct Hc as [_ Ht]. apply slots_of_render in Ht.
      eexists. eexists. split; [exact Ht |]. split; reflexivity.
    + destruct Hc as (bs & _ & _ & Ht). apply slots_of_render in Ht.
      unfold read_slots in Ht. cbn [app] in Ht.
      eexists. eexists. split; [exact Ht |].
      unfold count_slots. cbn [filter is_reset length].
      rewrite filter_reset_reads. split; reflexivity.
  - destruct (write_run h data true w) as (_ & _ & Ht & _).
    apply slots_of_render in Ht. unfold write_slots in Ht.
    cbn [app orb] in Ht. eexists. split; [exact Ht |].
    unfold count_slots. rewrite filter_reset_writes. reflexivity.
  - destruct (read_run h true w) as (_ & _ & Hc). cbn [negb andb] in Hc.
    destruct Hc as (bs & _ & _ & Ht). apply slots_of_render in Ht.
    unfold read_slots in Ht. cbn [app] in Ht.
    eexists. split; [exact Ht |].
    unfold count_slots. rewrite filter_reset_reads. reflexivity.
Qed.

(** ** Calls that omit the reset *)

(** C9: [read(noReset=true)] never takes the absence exit: whatever the
    stored presence, it performs exactly [_bppSec] Read slots and nothing
    else, returns the value accumulated from the sampled bits, and leaves
    the object, and so the stored presence, unchanged. *)
Theorem read_noReset_ignores_presence (h : Host) (w : World) :
  exists bs : list bool,
    slots_of h w (snd (read h true w)) = Some (map SRead bs) /\
    length bs = Z.to_nat (_bppSec (self w)) /\
    count_slots is_data (map SRead bs) = Z.to_nat (_bppSec (self w)) /\
    fst (read h true w) = accumulate 1 0 bs /\
    (forall i : nat,
        Z.testbit (fst (read h true w)) (Z.of_nat i) =
          (i <? 32)%nat && nth i bs false) /\
    self (snd (read h true w)) = self w /\
    _presence (self (snd (read h true w))) = _presence (self w).
Proof.
  destruct (read_run h true w) as (Hs & _ & Hc). cbn [negb andb] in Hc.
  destruct Hc as (bs & Hl & Hr & Ht). apply slots_of_render in Ht.
  exists bs. split; [exact Ht |]. split; [exact Hl |].
  split; [unfold count_slots; rewrite filter_data_reads, length_map; exact Hl |].
  split; [exact Hr |].
  split; [intros i; rewrite Hr; apply accumulate_testbit |].
  split; [exact Hs | rewrite Hs; reflexivity].
Qed.

(** C10: [write(data, noReset=true)] transmits all [_bppPri] data slots
    whatever the stored presence, changes nothing in the object, and returns
    the presence stored by the most recent Reset/Presence slot; on an
    instance whose stored presence is false it therefore returns false after
    sending the whole packet. *)
Theorem write_noReset_returns_stored_presence (h : Host) (w : World)
        (data : Z) :
  slots_of h w (snd (write h data true w)) =
    Some (map SWrite (packet_bits (Z.to_nat (_bppPri (self w))) (u32 data))) /\
  count_slots is_data
    (map SWrite (packet_bits (Z.to_nat (_bppPri (self w))) (u32 data)))
    = Z.to_nat (_bppPri (self w)) /\
  fst (write h data true w) = _presence (self w) /\
  self (snd (write h data true w)) = self w /\
  (fst (write host_no_sec 165 true (power_on (MD_OnePin_new 2 8 8 0 0)))
     = false /\
   option_map (count_slots is_data)
     (slots_of host_no_sec (power_on (MD_OnePin_new 2 8 8 0 0))
        (snd (write host_no_sec 165 true
                (power_on (MD_OnePin_new 2 8 8 0 0)))))
     = Some 8%nat).
Proof.
  destruct (write_run h data true w) as (Hr & Hs & Ht & _).
  apply slots_of_render in Ht. unfold write_slots in Ht. cbn [app orb] in Ht.
  split; [exact Ht |].
  split; [unfold count_slots;
          rewrite filter_data_writes, length_map; apply packet_bits_length |].
  split; [exact Hr |]. split; [exact Hs |].
  vm_compute. split; reflexivity.
Qed.

(** ** The end-to-end scenarios, run on the sample hosts *)

Example scenario_calibration :
  _switchTime
    (self (snd (begin host_no_sec (power_on (MD_OnePin_new 2 8 8 0 0))))) = 4 /\
  _writeTime
    (self (snd (begin host_no_sec (power_on (MD_OnePin_new 2 8 8 0 0))))) = 2.
Proof. vm_compute. split; reflexivity. Qed.

Example scenario_presence_handshake :
  let w := snd (begin host_sec_b4 (power_on (MD_OnePin_new 2 8 8 0 0))) in
  fst (write host_sec_b4 0 false w) = true /\
  slots_of host_sec_b4 w (snd (write host_sec_b4 0 false w)) =
    Some (SReset true :: repeat (SWrite false) 8).
Proof. vm_compute. split; reflexivity. Qed.

Example scenario_no_sec :
  let w := snd (begin host_no_sec (power_on (MD_OnePin_new 2 8 8 0 0))) in
  fst (write host_no_sec 170 false w) = false /\
  slots_of host_no_sec w (snd (write host_no_sec 170 false w)) =
    Some [SReset false] /\
  fst (isPresent (snd (write host_no_sec 170 false w))) = false.
Proof. vm_compute. repeat split. Qed.

Example scenario_read_b4 :
  let w := snd (begin host_sec_b4 (power_on (MD_OnePin_new 2 8 8 0 0))) in
  fst (read host_sec_b4 false w) = 180 /\
  slots_of host_sec_b4 w (snd (read host_sec_b4 false w)) =
    Some (SReset true
          :: map SRead [false; false; true; false; true; true; false; true]).
Proof. vm_compute. split; reflexivity. Qed.

Example scenario_chained_noReset :
  let w := snd (begin host_sec_b4 (power_on (MD_OnePin_new 2 8 8 0 0))) in
  slots_of host_sec_b4 w
    (run_calls host_sec_b4 [CallWrite 1 false; CallWrite 2 true] w) =
    Some (SReset true
          :: map SWrite (packet_bits 8 1) ++ map SWrite (packet_bits 8 2)).
Proof. vm_compute. reflexivity. Qed.

Example scenario_width_one :
  let w := snd (begin host_no_sec (power_on (MD_OnePin_new 2 1 1 0 0))) in
  slots_of host_no_sec w (snd (write host_no_sec 1 true w)) =
    Some [SWrite true] /\
  slots_of host_no_sec w (snd (write host_no_sec 0 true w)) =
    Some [SWrite false].
Proof. vm_compute. split; reflexivity. Qed.

(** The idle state is established by [begin]: a [write] that omits the
    reset on a board that was never initialised leaves the pin an input. *)
Example scenario_write_before_begin :
  mode (pins (board (snd (write host_no_sec 1 true
                            (power_on (MD_OnePin_new 2 8 8 0 0))))) 2)
    = INPUT.
Proof. vm_compute. reflexivity. Qed.

(** * Further properties of the engine *)

(** ** The calls, unfolded *)

Lemma upd_other (f : Z -> PinState) (p q : Z) (s : PinState) :
  q <> p -> upd f p s q = f q.
Proof.
  intros N. unfold upd. destruct (Z.eqb_spec q p); [contradiction | reflexivity].
Qed.

Lemma resetComm_presence (h : Host) (w : World) :
  _presence (self (snd (resetComm h w))) = fst (resetComm h w).
Proof.
  rewrite (proj1 (resetComm_run h w)). reflexivity.
Qed.

Lemma write_unfold_noReset (h : Host) (data : Z) (w : World) :
  write h data true w =
    (_presence (self w),
     snd (write_loop h (Z.to_nat (_bppPri (self w))) (u32 data) w)).
Proof.
  unfold write. cbn [negb orb]. unfold bind, ret, member.
  destruct (write_loop_run h (Z.to_nat (_bppPri (self w))) (u32 data) w)
    as (Hs & _).
  destruct (write_loop h _ _ w) as [u w1]. cbn [snd] in *.
  rewrite Hs. reflexivity.
Qed.

Lemma write_unfold_reset (h : Host) (data : Z) (w : World) :
  write h data false w =
    (fst (resetComm h w),
     if fst (resetComm h w)
     then snd (write_loop h (Z.to_nat (_bppPri (self w))) (u32 data)
                 (snd (resetComm h w)))
     else snd (resetComm h w)).
Proof.
  unfold write. cbn [negb orb]. unfold bind, ret, member.
  pose proof (resetComm_presence h w) as Hp.
  pose proof (proj1 (resetComm_run h w)) as Hs. cbv zeta in Hs.
  destruct (resetComm h w) as [p w1]. cbn [fst snd] in *.
  assert (Hb : _bppPri (self w1) = _bppPri (self w))
    by (rewrite Hs; reflexivity).
  rewrite Hp. destruct p.
  - rewrite Hb.
    destruct (write_loop_run h (Z.to_nat (_bppPri (self w))) (u32 data) w1)
      as (Hs' & _).
    destruct (write_loop h _ _ w1) as [u w2]. cbn [snd] in *.
    rewrite Hs', Hp. reflexivity.
  - rewrite Hp. reflexivity.
Qed.

Lemma read_unfold_noReset (h : Host) (w : World) :
  read h true w = read_loop h (Z.to_nat (_bppSec (self w))) 1 0 w.
Proof. reflexivity. Qed.

Lemma read_unfold_reset (h : Host) (w : World) :
  read h false w =
    if fst (resetComm h w)
    then read_loop h (Z.to_nat (_bppSec (self w))) 1 0 (snd (resetComm h w))
    else (4294967295, snd (resetComm h w)).
Proof.
  unfold read. cbn [negb andb]. unfold bind, ret, member.
  pose proof (resetComm_presence h w) as Hp.
  pose proof (proj1 (resetComm_run h w)) as Hs. cbv zeta in Hs.
  destruct (resetComm h w) as [p w1]. cbn [fst snd] in *.
  assert (Hb : _bppSec (self w1) = _bppSec (self w))
    by (rewrite Hs; reflexivity).
  rewrite Hp. destruct p; cbn [negb]; [rewrite Hb |]; reflexivity.
Qed.

(** ** What a call touches *)

Ltac run_slot :=
  unfold resetComm, OP_SIGNAL, SET_TO_INPUT, SET_TO_OUTPUT, bind, ret, member,
    pinMode, digitalWrite, digitalRead, delayMicroseconds, set_presence,
    assign;
  repeat
    (progress
       (change (0 =? 0) with true;
        cbn [negb fst snd self board pins reads ticks trace mode latch];
        rewrite ?upd_same)).

Lemma same_other_pins_refl (w : World) : same_other_pins w w.
Proof. intros q _. reflexivity. Qed.

Lemma same_other_pins_trans (w w1 w2 : World) :
  _pin (self w1) = _pin (self w) ->
  same_other_pins w w1 -> same_other_pins w1 w2 -> same_other_pins w w2.
Proof.
  intros Hp H1 H2 q Hq. rewrite H2 by (rewrite Hp; exact Hq). apply H1, Hq.
Qed.

Lemma OP_SIGNAL_footprint (h : Host) (active pause : Z) (w : World) :
  reads (board (snd (OP_SIGNAL h active pause w))) = reads (board w) /\
  ticks (board (snd (OP_SIGNAL h active pause w))) = ticks (board w) /\
  same_other_pins w (snd (OP_SIGNAL h active pause w)).
Proof.
  destruct w as [o b]. unfold same_other_pins. run_slot.
  destruct (pause =? 0); run_slot; repeat split;
    intros q Hq; rewrite !upd_other by exact Hq; reflexivity.
Qed.

Lemma resetComm_footprint (h : Host) (w : World) :
  fst (resetComm h w) = Level_eqb (line_level h (reads (board w))) LOW /\
  reads (board (snd (resetComm h w))) = S (reads (board w)) /\
  ticks (board (snd (resetComm h w))) = ticks (board w) /\
  same_other_pins w (snd (resetComm h w)).
Proof.
  destruct w as [o b]. unfold same_other_pins. run_slot.
  repeat split. intros q Hq. cbn [with_presence _pin].
  rewrite !upd_other by exact Hq. reflexivity.
Qed.

Lemma write_loop_footprint (h : Host) (n : nat) : forall (data : Z) (w : World),
  reads (board (snd (write_loop h n data w))) = reads (board w) /\
  ticks (board (snd (write_loop h n data w))) = ticks (board w) /\
  same_other_pins w (snd (write_loop h n data w)).
Proof.
  induction n as [| n IH]; intros data w.
  - cbn [write_loop ret snd].
    split; [| split]; [reflexivity | reflexivity | apply same_other_pins_refl].
  - cbn [write_loop]. unfold bind.
    set (c := if negb (Z.land data 1 =? 0)
              then OP_SIGNAL h OPT_WR1_SIGNAL OPT_WR1_PAUSE
              else OP_SIGNAL h OPT_WR0_SIGNAL OPT_WR0_PAUSE).
    assert (Hc : self (snd (c w)) = self w /\
                 reads (board (snd (c w))) = reads (board w) /\
                 ticks (board (snd (c w))) = ticks (board w) /\
                 same_other_pins w (snd (c w))).
    { subst c. destruct (negb (Z.land data 1 =? 0));
        (split; [apply OP_SIGNAL_run | apply OP_SIGNAL_footprint]). }
    destruct (c w) as [u w1]. cbn [snd] in Hc.
    destruct Hc as (Hs & Hr & Hk & Hf).
    destruct (IH (Z.shiftr data 1) w1) as (Hr' & Hk' & Hf').
    split; [congruence |]. split; [congruence |].
    apply same_other_pins_trans with (w1 := w1); [rewrite Hs |..]; auto.
Qed.

Lemma sampled_bits_S (h : Host) (k n : nat) :
  sampled_bits h k (S n) = line_bit h k :: sampled_bits h (S k) n.
Proof.
  unfold sampled_bits. cbn [seq map]. rewrite Nat.add_0_r. f_equal.
  rewrite <- seq_shift, map_map. apply map_ext. intros i.
  rewrite Nat.add_succ_r. reflexivity.
Qed.

Lemma read_loop_footprint (h : Host) (n : nat) :
  forall (mask packet : Z) (w : World),
  fst (read_loop h n mask packet w) =
    accumulate mask packet (sampled_bits h (reads (board w)) n) /\
  reads (board (snd (read_loop h n mask packet w))) =
    (reads (board w) + n)%nat /\
  ticks (board (snd (read_loop h n mask packet w))) = ticks (board w) /\
  same_other_pins w (snd (read_loop h n mask packet w)).
Proof.
  induction n as [| n IH]; intros mask packet w.
  - cbn [read_loop ret fst snd sampled_bits seq map accumulate].
    rewrite Nat.add_0_r.
    split; [| split; [| split]];
      [reflexivity | reflexivity | reflexivity | apply same_other_pins_refl].
  - destruct w as [o b]. rewrite sampled_bits_S. cbn [read_loop]. run_slot.
    match goal with
    | |- context [read_loop h n ?m ?p ?w1] =>
        destruct (IH m p w1) as (Hv & Hr & Hk & Hf)
    end.
    cbn [self board reads ticks] in Hv, Hr, Hk.
    split; [rewrite Hv; reflexivity |].
    split; [rewrite Hr; lia |]. split; [exact Hk |].
    intros q Hq. cbn [self] in Hq. rewrite Hf by exact Hq.
    cbn [board pins]. rewrite !upd_other by exact Hq. reflexivity.
Qed.

(** ** Values a packet can take *)

Lemma decode_lsb_bound (bs : list bool) :
  0 <= decode_lsb bs < 2 ^ Z.of_nat (length bs).
Proof.
  induction bs as [| b bs IH].
  - cbn. lia.
  - cbn [decode_lsb length]. rewrite Nat2Z.inj_succ, Z.pow_succ_r by lia.
    destruct b; cbn [Z.b2z]; lia.
Qed.

Lemma accumulate_firstn (bs : list bool) :
  accumulate 1 0 bs = decode_lsb (firstn 32 bs).
Proof.
  apply Z.bits_inj'. intros n Hn.
  rewrite <- (Z2Nat.id n Hn), accumulate_testbit, decode_lsb_testbit.
  rewrite nth_firstn. destruct (Z.to_nat n <? 32)%nat; reflexivity.
Qed.

Lemma accumulate_bound (bs : list bool) :
  0 <= accumulate 1 0 bs < 2 ^ Z.min 32 (Z.of_nat (length bs)).
Proof.
  rewrite accumulate_firstn.
  pose proof (decode_lsb_bound (firstn 32 bs)) as B.
  rewrite length_firstn in B.
  replace (Z.of_nat (Init.Nat.min 32 (length bs)))
    with (Z.min 32 (Z.of_nat (length bs))) in B by lia.
  exact B.
Qed.

Lemma sampled_bits_length (h : Host) (k n : nat) :
  length (sampled_bits h k n) = n.
Proof. unfold sampled_bits. rewrite length_map, length_seq. reflexivity. Qed.

Lemma packet_bits_testbit (n : nat) (v : Z) :
  packet_bits n v = map (fun i => Z.testbit v (Z.of_nat i)) (seq 0 n).
Proof. unfold packet_bits. apply map_ext. intros i. apply bit_of_testbit. Qed.

(** The value [read] returns when it runs its loop, from the input samples
    the host supplies. *)
Lemma read_loop_value (h : Host) (w : World) (n : nat) :
  fst (read_loop h n 1 0 w) =
    accumulate 1 0 (sampled_bits h (reads (board w)) n).
Proof. apply read_loop_footprint. Qed.

Lemma read_value (h : Host) (noReset : bool) (w : World) :
  noReset = true \/ fst (resetComm h w) = true ->
  fst (read h noReset w) =
    accumulate 1 0
      (sampled_bits h
         (reads (board w) + (if noReset then 0 else 1))%nat
         (Z.to_nat (_bppSec (self w)))).
Proof.
  intros Hp. destruct noReset.
  - rewrite read_unfold_noReset, read_loop_value, Nat.add_0_r. reflexivity.
  - destruct Hp as [Hp | Hp]; [discriminate |].
    rewrite read_unfold_reset, Hp, read_loop_value.
    rewrite (proj1 (proj2 (resetComm_footprint h w))), Nat.add_1_r.
    reflexivity.
Qed.

Lemma wire_bits (h : Host) (k n : nat) (v : Z) :
  (forall i : nat, (i < n)%nat ->
     line_level h (k + i) =
       if Z.testbit v (Z.of_nat i) then HIGH else LOW) ->
  sampled_bits h k n = packet_bits n v.
Proof.
  intros Hl. rewrite packet_bits_testbit. unfold sampled_bits.
  apply map_ext_in. intros i Hi. apply in_seq in Hi.
  unfold line_bit. rewrite Hl by lia.
  destruct (Z.testbit v (Z.of_nat i)); reflexivity.
Qed.

Lemma read_wire_value (h : Host) (noReset : bool) (w : World) (v : Z) :
  0 <= _bppSec (self w) <= 32 ->
  noReset = true \/ fst (resetComm h w) = true ->
  (forall i : nat, (i < Z.to_nat (_bppSec (self w)))%nat ->
     line_level h (reads (board w) + (if noReset then 0 else 1) + i) =
       if Z.testbit v (Z.of_nat i) then HIGH else LOW) ->
  fst (read h noReset w) = v mod 2 ^ _bppSec (self w).
Proof.
  intros Hn Hp Hl. rewrite (read_value h noReset w Hp).
  rewrite (wire_bits h _ _ v Hl).
  rewrite accumulate_decode by (rewrite packet_bits_length; lia).
  rewrite decode_packet_bits, Z2Nat.id by lia. reflexivity.
Qed.

(** X1: the presence a Reset/Presence slot records is exactly whether the
    line is LOW at the single input sample the slot takes; the slot consumes
    one sample of the host and stores its verdict in [_presence]. *)
Theorem presence_is_the_sample (h : Host) (w : World) :
  fst (resetComm h w) = Level_eqb (line_level h (reads (board w))) LOW /\
  _presence (self (snd (resetComm h w))) =
    Level_eqb (line_level h (reads (board w))) LOW /\
  reads (board (snd (resetComm h w))) = S (reads (board w)) /\
  length (filter is_sample (new_events w (snd (resetComm h w)))) = 1%nat.
Proof.
  destruct (resetComm_footprint h w) as (Hv & Hr & _).
  split; [exact Hv |]. split; [rewrite resetComm_presence; exact Hv |].
  split; [exact Hr |].
  rewrite (new_events_app _ _ _ (proj1 (proj2 (resetComm_run h w)))).
  reflexivity.
Qed.

(** X2: when SEC is present (or the reset is omitted) and, for a width of at
    most 32, the line shows bit i of [v] at the i-th data sample, [read]
    returns [v] reduced to [_bppSec] bits. *)
Theorem read_returns_wire_value (h : Host) (noReset : bool) (w : World)
        (v : Z) :
  0 <= _bppSec (self w) <= 32 ->
  noReset = true \/ fst (resetComm h w) = true ->
  (forall i : nat, (i < Z.to_nat (_bppSec (self w)))%nat ->
     line_level h (reads (board w) + (if noReset then 0 else 1) + i) =
       if Z.testbit v (Z.of_nat i) then HIGH else LOW) ->
  fst (read h noReset w) = v mod 2 ^ _bppSec (self w).
Proof. apply read_wire_value. Qed.

Lemma read_returns_wire_value_witness :
  (0 <= _bppSec (self (power_on (MD_OnePin_new 2 8 8 0 0))) <= 32 /\
   (false = true \/
    fst (resetComm host_sec_b4 (power_on (MD_OnePin_new 2 8 8 0 0))) = true) /\
   (forall i : nat,
       (i < Z.to_nat (_bppSec (self (power_on (MD_OnePin_new 2 8 8 0 0)))))%nat ->
       line_level host_sec_b4
         (reads (board (power_on (MD_OnePin_new 2 8 8 0 0))) + 1 + i) =
         if Z.testbit 180 (Z.of_nat i) then HIGH else LOW)) /\
  fst (read host_sec_b4 false (power_on (MD_OnePin_new 2 8 8 0 0))) =
    180 mod 2 ^ _bppSec (self (power_on (MD_OnePin_new 2 8 8 0 0))).
Proof.
  assert (Hl : forall i : nat,
             (i < Z.to_nat
                    (_bppSec (self (power_on (MD_OnePin_new 2 8 8 0 0)))))%nat ->
             line_level host_sec_b4
               (reads (board (power_on (MD_OnePin_new 2 8 8 0 0))) + 1 + i) =
               if Z.testbit 180 (Z.of_nat i) then HIGH else LOW).
  { intros i Hi. change (i < 8)%nat in Hi.
    do 8 (destruct i as [| i]; [reflexivity |]). lia. }
  assert (Hn : 0 <= _bppSec (self (power_on (MD_OnePin_new 2 8 8 0 0))) <= 32)
    by (cbv; split; discriminate).
  assert (Hp : false = true \/
               fst (resetComm host_sec_b4
                      (power_on (MD_OnePin_new 2 8 8 0 0))) = true)
    by (right; reflexivity).
  split; [exact (conj Hn (conj Hp Hl)) |].
  exact (read_returns_wire_value host_sec_b4 false
           (power_on (MD_OnePin_new 2 8 8 0 0)) 180 Hn Hp Hl).
Defined.

(** ** The absence sentinel *)

Lemma read_loop_bound (h : Host) (w : World) (n : nat) :
  0 <= fst (read_loop h n 1 0 w) < 2 ^ Z.min 32 (Z.of_nat n).
Proof.
  rewrite read_loop_value.
  pose proof (accumulate_bound (sampled_bits h (reads (board w)) n)) as B.
  rewrite sampled_bits_length in B. exact B.
Qed.

Lemma pow2_min_le (a b : Z) : 0 <= a <= b -> 2 ^ Z.min 32 a <= 2 ^ Z.min 32 b.
Proof. intros H. apply Z.pow_le_mono_r; lia. Qed.

(** X3: with a receive width below 32 the sentinel is unambiguous:
    [read(noReset=false)] returns 0xFFFFFFFF exactly when its Reset/Presence
    slot found no SEC, and [read(noReset=true)] never returns it. *)
Theorem read_sentinel_unambiguous (h : Host) (w : World) :
  _bppSec (self w) < 32 ->
  (fst (read h false w) = 4294967295 <-> fst (resetComm h w) = false) /\
  fst (read h true w) <> 4294967295.
Proof.
  intros Hn.
  assert (B : forall w1 : World,
             fst (read_loop h (Z.to_nat (_bppSec (self w))) 1 0 w1)
               < 4294967295).
  { intros w1.
    pose proof (read_loop_bound h w1 (Z.to_nat (_bppSec (self w)))) as B.
    assert (2 ^ Z.min 32 (Z.of_nat (Z.to_nat (_bppSec (self w))))
              <= 2 ^ Z.min 32 31)
      by (apply pow2_min_le; lia).
    change (2 ^ Z.min 32 31) with 2147483648 in *. lia. }
  split.
  - rewrite read_unfold_reset. destruct (fst (resetComm h w)).
    + split; [| discriminate]. intros E.
      pose proof (B (snd (resetComm h w))). lia.
    + split; reflexivity.
  - rewrite read_unfold_noReset. pose proof (B w). lia.
Qed.

Lemma read_sentinel_unambiguous_witness :
  _bppSec (self (power_on (MD_OnePin_new 2 8 8 0 0))) < 32 /\
  (fst (read host_no_sec false (power_on (MD_OnePin_new 2 8 8 0 0)))
     = 4294967295 <->
   fst (resetComm host_no_sec (power_on (MD_OnePin_new 2 8 8 0 0))) = false) /\
  fst (read host_no_sec true (power_on (MD_OnePin_new 2 8 8 0 0)))
    <> 4294967295.
Proof.
  split; [reflexivity |].
  apply (read_sentinel_unambiguous host_no_sec
           (power_on (MD_OnePin_new 2 8 8 0 0))).
  reflexivity.
Defined.


(** X5: with a receive width of exactly 32 the sentinel is ambiguous: when
    SEC asserts presence and then answers 32 one bits, [read] returns
    0xFFFFFFFF although the presence it stored is true. *)
Theorem read_sentinel_ambiguous_at_32 (h : Host) (w : World) :
  _bppSec (self w) = 32 ->
  line_level h (reads (board w)) = LOW ->
  (forall i : nat, (i < 32)%nat ->
     line_level h (reads (board w) + 1 + i) = HIGH) ->
  fst (read h false w) = 4294967295 /\
  fst (isPresent (snd (read h false w))) = true.
Proof.
  intros Hn Hlow Hhigh.
  assert (Hp : fst (resetComm h w) = true).
  { rewrite (proj1 (resetComm_footprint h w)), Hlow. reflexivity. }
  split.
  - rewrite (read_wire_value h false w (-1)).
    + rewrite Hn. reflexivity.
    + lia.
    + right. exact Hp.
    + intros i Hi. rewrite Hn in Hi. rewrite Z.bits_m1 by lia.
      apply Hhigh. exact Hi.
  - unfold isPresent, member. cbn [fst].
    rewrite (proj1 (read_run h false w)). unfold presence_seen.
    rewrite Hp. reflexivity.
Qed.

Lemma read_sentinel_ambiguous_at_32_witness :
  (_bppSec (self (power_on (MD_OnePin_new 2 8 32 0 0))) = 32 /\
   line_level host_all_ones
     (reads (board (power_on (MD_OnePin_new 2 8 32 0 0)))) = LOW /\
   (forall i : nat, (i < 32)%nat ->
      line_level host_all_ones
        (reads (board (power_on (MD_OnePin_new 2 8 32 0 0))) + 1 + i) = HIGH))
  /\
  fst (read host_all_ones false (power_on (MD_OnePin_new 2 8 32 0 0)))
    = 4294967295 /\
  fst (isPresent
         (snd (read host_all_ones false
                 (power_on (MD_OnePin_new 2 8 32 0 0))))) = true.
Proof.
  assert (Hh : forall i : nat, (i < 32)%nat ->
             line_level host_all_ones
               (reads (board (power_on (MD_OnePin_new 2 8 32 0 0))) + 1 + i)
             = HIGH) by (intros i _; reflexivity).
  split; [exact (conj eq_refl (conj eq_refl Hh)) |].
  exact (read_sentinel_ambiguous_at_32 host_all_ones
           (power_on (MD_OnePin_new 2 8 32 0 0)) eq_refl eq_refl Hh).
Defined.

(** X6: [isPresent] performs no signalling and changes nothing; called after
    a [write] or [read] that did its reset it reports what that
    Reset/Presence slot found, which is also what [write] returned; after a
    call that omitted the reset it reports what was stored before. *)
Theorem isPresent_reports_last_reset (h : Host) (w : World) (data : Z) :
  snd (isPresent w) = w /\
  fst (isPresent (snd (write h data false w))) = fst (write h data false w) /\
  fst (isPresent (snd (write h data false w))) = fst (resetComm h w) /\
  fst (isPresent (snd (read h false w))) = fst (resetComm h w) /\
  fst (isPresent (snd (write h data true w))) = fst (isPresent w) /\
  fst (isPresent (snd (read h true w))) = fst (isPresent w).
Proof.
  unfold isPresent, member. cbn [fst snd].
  destruct (write_run h data false w) as (Hr & Hs & _).
  destruct (write_run h data true w) as (_ & Hs' & _).
  pose proof (proj1 (read_run h false w)) as Hrs.
  pose proof (proj1 (read_run h true w)) as Hrs'.
  cbv zeta in *. unfold presence_seen in *.
  rewrite Hs, Hs', Hrs, Hrs', Hr.
  repeat split.
Qed.

(** ** What the calls leave alone *)

Lemma repeat_do_inv (body : M unit) (P : World -> Prop) :
  (forall w, P w -> P (snd (body w))) ->
  forall (n : nat) (w : World), P w -> P (snd (repeat_do n body w)).
Proof.
  intros Hbody. induction n as [| n IH]; intros w Hw; [exact Hw |].
  cbn [repeat_do]. unfold bind.
  pose proof (Hbody w Hw) as HP. destruct (body w) as [u w1].
  cbn [snd] in HP. apply IH, HP.
Qed.

Lemma begin_loops_footprint (h : Host) (n1 n2 : nat) (w : World) :
  reads (board (snd (begin_loops h n1 n2 w))) = reads (board w) /\
  ticks (board (snd (begin_loops h n1 n2 w))) = (ticks (board w) + 4)%nat /\
  same_other_pins w (snd (begin_loops h n1 n2 w)).
Proof.
  destruct w as [o b]. unfold same_other_pins.
  destruct (begin_loops h n1 n2 _) as [u w'] eqn:E.
  cbn [snd self board ticks reads pins].
  unfold begin_loops, SET_TO_OUTPUT, SET_TO_INPUT, set_switchTime,
    set_writeTime, assign, bind, micros, member, pinMode, digitalWrite in E.
  cbn [self board pins reads ticks trace] in E.
  match type of E with
  | context [repeat_do n1 ?body ?w0] =>
      destruct (repeat_do_inv body
                  (fun w => self w = o /\
                            ticks (board w) = S (ticks b) /\
                            reads (board w) = reads b /\
                            forall q, q <> _pin o ->
                              pins (board w) q = pins b q)
                  ltac:(intros [o1 b1] (Ho & Hk & Hr & Hf);
                        cbn [self board] in Ho, Hk, Hr, Hf; subst o1;
                        cbn [snd self board ticks reads pins trace];
                        repeat split; auto;
                        intros q Hq; rewrite !upd_other by exact Hq;
                        apply Hf, Hq)
                  n1 w0
                  ltac:(cbn [self board ticks reads pins]; auto))
        as (Hs1 & Hk1 & Hr1 & Hf1);
      destruct (repeat_do n1 body w0) as [u1 [o1 b1]]
  end.
  cbn [snd self board ticks reads pins] in Hs1, Hk1, Hr1, Hf1, E. subst o1.
  cbn [with_switchTime _pin] in E.
  match type of E with
  | context [repeat_do n2 ?body ?w2] =>
      destruct (repeat_do_inv body
                  (fun w => ticks (board w) = S (S (S (ticks b))) /\
                            reads (board w) = reads b /\
                            forall q, q <> _pin o ->
                              pins (board w) q = pins b q)
                  ltac:(intros [o3 b3] (Hk & Hr & Hf);
                        cbn [self board] in Hk, Hr, Hf;
                        cbn [snd self board ticks reads pins trace];
                        repeat split; auto;
                        intros q Hq; rewrite !upd_other by exact Hq;
                        apply Hf, Hq)
                  n2 w2
                  ltac:(cbn [self board ticks reads pins];
                        repeat split; auto; try congruence;
                        intros q Hq; rewrite !upd_other by exact Hq;
                        apply Hf1, Hq))
        as (Hk2 & Hr2 & Hf2);
      destruct (repeat_do n2 body w2) as [u2 [o2 b2]]
  end.
  cbn [snd self board ticks reads pins] in Hk2, Hr2, Hf2, E.
  injection E as _ <-. cbn [self board pins reads ticks].
  split; [exact Hr2 |]. split; [rewrite Hk2; lia |].
  intros q Hq. rewrite upd_other by exact Hq. apply Hf2, Hq.
Qed.

Lemma begin_footprint (h : Host) (w : World) :
  reads (board (snd (begin h w))) = reads (board w) /\
  ticks (board (snd (begin h w))) = (ticks (board w) + 4)%nat /\
  same_other_pins w (snd (begin h w)).
Proof. rewrite begin_unroll. apply begin_loops_footprint. Qed.

Lemma write_footprint (h : Host) (data : Z) (noReset : bool) (w : World) :
  reads (board (snd (write h data noReset w))) =
    (reads (board w) + (if noReset then 0 else 1))%nat /\
  ticks (board (snd (write h data noReset w))) = ticks (board w) /\
  same_other_pins w (snd (write h data noReset w)).
Proof.
  destruct noReset.
  - rewrite write_unfold_noReset. cbn [snd]. rewrite Nat.add_0_r.
    apply write_loop_footprint.
  - rewrite write_unfold_reset. cbn [snd].
    destruct (resetComm_footprint h w) as (_ & Hr & Hk & Hf).
    pose proof (proj1 (resetComm_run h w)) as Hs. cbv zeta in Hs.
    destruct (fst (resetComm h w)).
    + destruct (write_loop_footprint h (Z.to_nat (_bppPri (self w)))
                  (u32 data) (snd (resetComm h w))) as (Hr' & Hk' & Hf').
      split; [rewrite Hr', Hr; lia |]. split; [congruence |].
      apply same_other_pins_trans with (w1 := snd (resetComm h w));
        [rewrite Hs; reflexivity | exact Hf | exact Hf'].
    + split; [rewrite Hr; lia |]. auto.
Qed.

Lemma pair_snd (A B : Type) (a : A) (b : B) : snd (a, b) = b.
Proof. reflexivity. Qed.

Lemma read_reset_absent (h : Host) (w : World) :
  fst (resetComm h w) = false ->
  read h false w = (4294967295, snd (resetComm h w)).
Proof. intros Hp. rewrite read_unfold_reset, Hp. reflexivity. Qed.

Lemma read_reset_present (h : Host) (w : World) :
  fst (resetComm h w) = true ->
  read h false w =
    read_loop h (Z.to_nat (_bppSec (self w))) 1 0 (snd (resetComm h w)).
Proof. intros Hp. rewrite read_unfold_reset, Hp. reflexivity. Qed.

Lemma read_footprint (h : Host) (noReset : bool) (w : World) :
  ticks (board (snd (read h noReset w))) = ticks (board w) /\
  same_other_pins w (snd (read h noReset w)).
Proof.
  destruct noReset.
  - rewrite read_unfold_noReset.
    destruct (read_loop_footprint h (Z.to_nat (_bppSec (self w))) 1 0 w)
      as (_ & _ & Hk & Hf).
    split; [exact Hk | exact Hf].
  - destruct (resetComm_footprint h w) as (_ & Hr & Hk & Hf).
    pose proof (proj1 (resetComm_run h w)) as Hs. cbv zeta in Hs.
    destruct (fst (resetComm h w)) eqn:Hp.
    + rewrite (read_reset_present h w Hp).
      destruct (read_loop_footprint h (Z.to_nat (_bppSec (self w))) 1 0
                  (snd (resetComm h w))) as (_ & _ & Hk' & Hf').
      split; [congruence |].
      apply same_other_pins_trans with (w1 := snd (resetComm h w));
        [rewrite Hs; reflexivity | exact Hf | exact Hf'].
    + rewrite (read_reset_absent h w Hp), pair_snd.
      split; [exact Hk | exact Hf].
Qed.

Lemma run_call_self (h : Host) (c : Call) (w : World) :
  _pin (self (run_call h c w)) = _pin (self w) /\
  _bppPri (self (run_call h c w)) = _bppPri (self w) /\
  _bppSec (self (run_call h c w)) = _bppSec (self w) /\
  (is_begin c = false ->
   _switchTime (self (run_call h c w)) = _switchTime (self w) /\
   _writeTime (self (run_call h c w)) = _writeTime (self w)).
Proof.
  destruct c as [| data noReset | noReset |]; cbn [run_call is_begin].
  - rewrite (proj1 (begin_run h w)). cbv zeta.
    repeat split; discriminate.
  - rewrite (proj1 (proj2 (write_run h data noReset w))).
    destruct noReset; repeat split.
  - rewrite (proj1 (read_run h noReset w)).
    destruct noReset; repeat split.
  - repeat split.
Qed.

Lemma run_call_other_pins (h : Host) (c : Call) (w : World) :
  same_other_pins w (run_call h c w).
Proof.
  destruct c as [| data noReset | noReset |]; cbn [run_call].
  - apply begin_footprint.
  - apply write_footprint.
  - apply read_footprint.
  - apply same_other_pins_refl.
Qed.

(** X7: no sequence of [write], [read] and [isPresent] calls changes the
    pin number, the two packet widths or the two calibration values; only
    [_presence] can differ afterwards. *)
Theorem calls_keep_configuration (h : Host) (cs : list Call) :
  forall w : World,
    forallb (fun c => negb (is_begin c)) cs = true ->
    same_config (self w) (self (run_calls h cs w)).
Proof.
  induction cs as [| c cs IH]; intros w Hcs.
  - unfold same_config. repeat split.
  - cbn [forallb] in Hcs. apply andb_prop in Hcs. destruct Hcs as [Hc Hcs].
    apply negb_true_iff in Hc. rewrite run_calls_cons.
    destruct (run_call_self h c w) as (Hp & Hpri & Hsec & Hcal).
    destruct (Hcal Hc) as [Hst Hwt].
    destruct (IH (run_call h c w) Hcs) as (Hp' & Hpri' & Hsec' & Hst' & Hwt').
    unfold same_config. repeat split; congruence.
Qed.

Lemma calls_keep_configuration_witness :
  forallb (fun c => negb (is_begin c))
    [CallWrite 165 false; CallRead true; CallIsPresent; CallWrite 1 true]
    = true /\
  same_config
    (self (snd (begin host_sec_b4 (power_on (MD_OnePin_new 2 8 8 0 0)))))
    (self (run_calls host_sec_b4
             [CallWrite 165 false; CallRead true; CallIsPresent;
              CallWrite 1 true]
             (snd (begin host_sec_b4 (power_on (MD_OnePin_new 2 8 8 0 0)))))).
Proof.
  split; [reflexivity |].
  apply (calls_keep_configuration host_sec_b4
           [CallWrite 165 false; CallRead true; CallIsPresent;
            CallWrite 1 true]).
  reflexivity.
Defined.

(** X8: the pin number and the packet widths fixed by the constructor
    survive every sequence of public calls, [begin] included. *)
Theorem calls_keep_pin_and_widths (h : Host) (cs : list Call) :
  forall w : World,
    _pin (self (run_calls h cs w)) = _pin (self w) /\
    _bppPri (self (run_calls h cs w)) = _bppPri (self w) /\
    _bppSec (self (run_calls h cs w)) = _bppSec (self w).
Proof.
  induction cs as [| c cs IH]; intros w.
  - repeat split.
  - rewrite run_calls_cons.
    destruct (run_call_self h c w) as (Hp & Hpri & Hsec & _).
    destruct (IH (run_call h c w)) as (Hp' & Hpri' & Hsec').
    repeat split; congruence.
Qed.

(** X9: the engine drives and reconfigures its own pin only: after any
    sequence of public calls every other pin of the board has the mode and
    latch it had before. *)
Theorem calls_touch_own_pin_only (h : Host) (cs : list Call) :
  forall (w : World) (q : Z),
    q <> _pin (self w) ->
    pins (board (run_calls h cs w)) q = pins (board w) q.
Proof.
  induction cs as [| c cs IH]; intros w q Hq; [reflexivity |].
  rewrite run_calls_cons.
  rewrite IH by (rewrite (proj1 (run_call_self h c w)); exact Hq).
  apply run_call_other_pins, Hq.
Qed.

Lemma calls_touch_own_pin_only_witness :
  3 <> _pin (self (power_on (MD_OnePin_new 2 8 8 0 0))) /\
  pins (board (run_calls host_sec_b4
                 [CallBegin; CallWrite 165 false; CallRead true]
                 (power_on (MD_OnePin_new 2 8 8 0 0)))) 3
    = pins (board (power_on (MD_OnePin_new 2 8 8 0 0))) 3.
Proof.
  assert (Hq : 3 <> _pin (self (power_on (MD_OnePin_new 2 8 8 0 0))))
    by (cbv; discriminate).
  split; [exact Hq |].
  exact (calls_touch_own_pin_only host_sec_b4
           [CallBegin; CallWrite 165 false; CallRead true]
           (power_on (MD_OnePin_new 2 8 8 0 0)) 3 Hq).
Defined.

(** ** Which bits of the data reach the wire *)

Lemma bit_of_shift (d : Z) (i : nat) :
  bit_of (Z.shiftr d 1) i = bit_of d (S i).
Proof.
  unfold bit_of. rewrite Z.shiftr_shiftr by lia.
  replace (1 + Z.of_nat i) with (Z.of_nat (S i)) by lia. reflexivity.
Qed.

Lemma bit_of_0 (d : Z) : bit_of d 0 = negb (Z.land d 1 =? 0).
Proof. unfold bit_of. cbn [Z.of_nat]. rewrite Z.shiftr_0_r. reflexivity. Qed.

Lemma write_loop_ext (h : Host) (n : nat) : forall (d d' : Z) (w : World),
  (forall i : nat, (i < n)%nat -> bit_of d i = bit_of d' i) ->
  write_loop h n d w = write_loop h n d' w.
Proof.
  induction n as [| n IH]; intros d d' w Hb; [reflexivity |].
  cbn [write_loop]. unfold bind.
  rewrite <- (bit_of_0 d), <- (bit_of_0 d'), (Hb O) by lia.
  destruct ((if bit_of d' 0
             then OP_SIGNAL h OPT_WR1_SIGNAL OPT_WR1_PAUSE
             else OP_SIGNAL h OPT_WR0_SIGNAL OPT_WR0_PAUSE) w) as [u w1].
  apply IH. intros i Hi. rewrite !bit_of_shift. apply Hb. lia.
Qed.

Lemma bit_of_u32 (v : Z) (i : nat) :
  bit_of (u32 v) i = (i <? 32)%nat && Z.testbit v (Z.of_nat i).
Proof.
  rewrite bit_of_testbit. unfold u32. rewrite Z.testbit_mod_pow2 by lia.
  f_equal. destruct (Nat.ltb_spec i 32); [apply Z.ltb_lt | apply Z.ltb_ge]; lia.
Qed.

(** X10: only the configured number of bits is transmitted: for a width of
    at most 32, two values that agree on their low [_bppPri] bits make
    [write] return the same result and leave the same world, trace
    included. *)
Theorem write_uses_low_bits_only (h : Host) (w : World) (v v' : Z)
        (noReset : bool) :
  0 <= _bppPri (self w) <= 32 ->
  v mod 2 ^ _bppPri (self w) = v' mod 2 ^ _bppPri (self w) ->
  write h v noReset w = write h v' noReset w.
Proof.
  intros Hn Hv.
  assert (Hb : forall i : nat, (i < Z.to_nat (_bppPri (self w)))%nat ->
                 bit_of (u32 v) i = bit_of (u32 v') i).
  { intros i Hi. rewrite !bit_of_u32. f_equal.
    rewrite <- (Z.mod_pow2_bits_low v (_bppPri (self w))) by lia.
    rewrite <- (Z.mod_pow2_bits_low v' (_bppPri (self w))) by lia.
    rewrite Hv. reflexivity. }
  destruct noReset.
  - rewrite !write_unfold_noReset.
    rewrite (write_loop_ext h _ (u32 v) (u32 v') w Hb). reflexivity.
  - rewrite !write_unfold_reset.
    rewrite (write_loop_ext h _ (u32 v) (u32 v') (snd (resetComm h w)) Hb).
    reflexivity.
Qed.

Lemma write_uses_low_bits_only_witness :
  (0 <= _bppPri (self (power_on (MD_OnePin_new 2 8 8 0 0))) <= 32 /\
   0xA5 mod 2 ^ _bppPri (self (power_on (MD_OnePin_new 2 8 8 0 0))) =
     0x12345FA5 mod 2 ^ _bppPri (self (power_on (MD_OnePin_new 2 8 8 0 0))))
  /\
  write host_no_sec 0xA5 true (power_on (MD_OnePin_new 2 8 8 0 0)) =
    write host_no_sec 0x12345FA5 true (power_on (MD_OnePin_new 2 8 8 0 0)).
Proof.
  assert (Hn : 0 <= _bppPri (self (power_on (MD_OnePin_new 2 8 8 0 0))) <= 32)
    by (cbv; split; discriminate).
  split; [exact (conj Hn eq_refl) |].
  exact (write_uses_low_bits_only host_no_sec
           (power_on (MD_OnePin_new 2 8 8 0 0)) 0xA5 0x12345FA5 true
           Hn eq_refl).
Defined.

(** X11: for every stored width, 0..255 and beyond 32 as well, and every
    integer passed as data, a transmitting [write] emits one Write slot per
    configured bit; slot i is a Write-1 slot exactly when i is below 32 and
    bit i of the data is set, so slots past the 32nd are all Write-0. *)
Theorem write_slots_any_width (h : Host) (w : World) (data : Z) :
  slots_of h w (snd (write h data true w)) =
    Some (map (fun i => SWrite ((i <? 32)%nat && Z.testbit data (Z.of_nat i)))
              (seq 0 (Z.to_nat (_bppPri (self w))))) /\
  slots_of h w (snd (write h data false w)) =
    Some (SReset (fst (resetComm h w))
          :: if fst (resetComm h w)
             then map (fun i =>
                         SWrite ((i <? 32)%nat && Z.testbit data (Z.of_nat i)))
                      (seq 0 (Z.to_nat (_bppPri (self w))))
             else []).
Proof.
  assert (Hb : forall n : nat,
             map SWrite (packet_bits n (u32 data)) =
             map (fun i => SWrite ((i <? 32)%nat
                                   && Z.testbit data (Z.of_nat i)))
                 (seq 0 n)).
  { intros n. unfold packet_bits. rewrite map_map. apply map_ext.
    intros i. rewrite bit_of_u32. reflexivity. }
  split.
  - destruct (write_run h data true w) as (_ & _ & Ht & _).
    apply slots_of_render in Ht. unfold write_slots in Ht.
    cbn [app orb] in Ht. rewrite Hb in Ht. exact Ht.
  - destruct (write_run h data false w) as (_ & _ & Ht & _).
    apply slots_of_render in Ht. unfold write_slots, presence_seen in Ht.
    cbn [app orb] in Ht. rewrite Hb in Ht. exact Ht.
Qed.

(** ** Time on the wire *)

Lemma total_app (xs ys : list Z) : total (xs ++ ys) = total xs + total ys.
Proof.
  induction xs as [| x xs IH]; cbn [app total fold_right]; [reflexivity |].
  fold (total (xs ++ ys)). fold (total xs). rewrite IH. lia.
Qed.

Lemma delay_arg_exact (im : IntModel) (nominal correction : Z) :
  0 <= correction <= nominal -> nominal < 65536 ->
  delay_arg im nominal correction = nominal - correction.
Proof.
  intros Hc Hn. unfold delay_arg. apply Z.mod_small.
  destruct im; cbn [uint_bits]; lia.
Qed.

Lemma slot_delays_total (im : IntModel) (o : MD_OnePin) (s : Slot) :
  0 <= _writeTime o <= 40 -> 0 <= _switchTime o <= 40 ->
  total (slot_delays im o s) = slot_nominal s - slot_correction o s.
Proof.
  intros Hw Hs. destruct protocol_values as
    (E1 & E2 & E3 & E4 & E5 & E6 & E7 & E8 & E9 & E10).
  destruct s as [p | [|] | b];
    unfold slot_delays, slot_nominal, slot_correction, total;
    cbn [fold_right];
    rewrite ?E1, ?E2, ?E3, ?E4, ?E5, ?E6, ?E7, ?E8, ?E9, ?E10;
    rewrite !delay_arg_exact by lia; lia.
Qed.

Lemma render_delays_total (im : IntModel) (o : MD_OnePin) (ss : list Slot) :
  0 <= _writeTime o <= 40 -> 0 <= _switchTime o <= 40 ->
  total (delays_of (render im o ss)) =
    total (map slot_nominal ss) - total (map (slot_correction o) ss).
Proof.
  intros Hw Hs. rewrite delays_of_render.
  induction ss as [| s ss IH]; [reflexivity |].
  cbn [flat_map map]. rewrite total_app, IH, slot_delays_total by assumption.
  cbn [total fold_right]. fold (total (map slot_nominal ss)).
  fold (total (map (slot_correction o) ss)). lia.
Qed.

(** X12: when both calibration values are at most 40 microseconds, the
    shortest nominal delay, no delay wraps, and the microseconds a [write]
    or [read] call asks the host to wait add up to the nominal lengths of
    its slots (600 for Reset/Presence, 80 for Write-1, 160 for Write-0, 320
    for Read) less the corrections: two write times per Write slot, one
    write time and two switch times per Reset/Presence or Read slot. *)
Theorem calls_wait_nominal_less_corrections (h : Host) (w : World) :
  0 <= _writeTime (self w) <= 40 ->
  0 <= _switchTime (self w) <= 40 ->
  (forall (data : Z) (noReset : bool),
      exists ss : list Slot,
        slots_of h w (snd (write h data noReset w)) = Some ss /\
        total (delays_of (new_events w (snd (write h data noReset w)))) =
          total (map slot_nominal ss)
          - total (map (slot_correction (self w)) ss)) /\
  (forall noReset : bool,
      exists ss : list Slot,
        slots_of h w (snd (read h noReset w)) = Some ss /\
        total (delays_of (new_events w (snd (read h noReset w)))) =
          total (map slot_nominal ss)
          - total (map (slot_correction (self w)) ss)).
Proof.
  intros Hw Hs. split.
  - intros data noReset.
    destruct (write_run h data noReset w) as (_ & _ & Ht & _).
    eexists. split; [apply slots_of_render; exact Ht |].
    rewrite (new_events_app _ _ _ Ht). apply render_delays_total; assumption.
  - intros noReset.
    destruct (read_run h noReset w) as (_ & _ & Hc).
    destruct (negb noReset && negb (presence_seen h noReset w)).
    + destruct Hc as [_ Ht].
      eexists. split; [apply slots_of_render; exact Ht |].
      rewrite (new_events_app _ _ _ Ht).
      apply render_delays_total; assumption.
    + destruct Hc as (bs & _ & _ & Ht).
      eexists. split; [apply slots_of_render; exact Ht |].
      rewrite (new_events_app _ _ _ Ht).
      apply render_delays_total; assumption.
Qed.

Lemma calls_wait_nominal_less_corrections_witness :
  (0 <= _writeTime
          (self (snd (begin host_no_sec
                        (power_on (MD_OnePin_new 2 8 8 0 0))))) <= 40 /\
   0 <= _switchTime
          (self (snd (begin host_no_sec
                        (power_on (MD_OnePin_new 2 8 8 0 0))))) <= 40) /\
  exists ss : list Slot,
    slots_of host_no_sec
      (snd (begin host_no_sec (power_on (MD_OnePin_new 2 8 8 0 0))))
      (snd (write host_no_sec 5 true
              (snd (begin host_no_sec
                      (power_on (MD_OnePin_new 2 8 8 0 0)))))) = Some ss /\
    total (delays_of
             (new_events
                (snd (begin host_no_sec (power_on (MD_OnePin_new 2 8 8 0 0))))
                (snd (write host_no_sec 5 true
                        (snd (begin host_no_sec
                                (power_on (MD_OnePin_new 2 8 8 0 0))))))))
    = total (map slot_nominal ss)
      - total (map (slot_correction
                      (self (snd (begin host_no_sec
                                    (power_on (MD_OnePin_new 2 8 8 0 0))))))
                   ss).
Proof.
  assert (Hw : 0 <= _writeTime
                      (self (snd (begin host_no_sec
                                    (power_on (MD_OnePin_new 2 8 8 0 0)))))
               <= 40) by (vm_compute; split; discriminate).
  assert (Hs : 0 <= _switchTime
                      (self (snd (begin host_no_sec
                                    (power_on (MD_OnePin_new 2 8 8 0 0)))))
               <= 40) by (vm_compute; split; discriminate).
  split; [exact (conj Hw Hs) |].
  exact (proj1 (calls_wait_nominal_less_corrections host_no_sec
                  (snd (begin host_no_sec
                          (power_on (MD_OnePin_new 2 8 8 0 0)))) Hw Hs)
           5 true).
Defined.

(** ** Calibration against the clock *)

Lemma elapsed_u32 (c d : Z) :
  0 <= d < 2 ^ 32 -> u32 (u32 (c + d) - u32 c) = d.
Proof.
  intros Hd. unfold u32. rewrite <- Zminus_mod.
  replace (c + d - c) with d by lia. apply Z.mod_small. exact Hd.
Qed.

(** X13: when the counter advances by less than 2^23 microseconds over the
    first loop and by less than 2^24 over the second, [begin] stores exactly
    the elapsed time divided by 128 and by 256, wherever the counter stood:
    an overflow of the 32-bit counter during a loop does not disturb the
    measurement. *)
Theorem begin_measures_elapsed (h : Host) (w : World) (d1 d2 : Z) :
  0 <= d1 < 2 ^ 23 ->
  clock_us h (S (ticks (board w))) = clock_us h (ticks (board w)) + d1 ->
  0 <= d2 < 2 ^ 24 ->
  clock_us h (S (S (S (ticks (board w))))) =
    clock_us h (S (S (ticks (board w)))) + d2 ->
  _switchTime (self (snd (begin h w))) = d1 / 128 /\
  _writeTime (self (snd (begin h w))) = d2 / 256.
Proof.
  intros Hd1 Hc1 Hd2 Hc2.
  rewrite (proj1 (begin_run h w)). cbv zeta.
  cbn [_switchTime _writeTime with_writeTime with_switchTime].
  unfold measured_switchTime, measured_writeTime.
  rewrite Hc1, Hc2, !elapsed_u32 by lia.
  rewrite !Z.shiftr_div_pow2 by lia.
  change (2 ^ 7) with 128. change (2 ^ 8) with 256. unfold u16.
  split; apply Z.mod_small.
  - split; [apply Z.div_pos; lia |].
    apply Z.div_lt_upper_bound; lia.
  - split; [apply Z.div_pos; lia |].
    apply Z.div_lt_upper_bound; lia.
Qed.

Lemma begin_measures_elapsed_witness :
  (0 <= 640 < 2 ^ 23 /\
   clock_us host_wrapping
     (S (ticks (board (power_on (MD_OnePin_new 2 8 8 0 0))))) =
     clock_us host_wrapping
       (ticks (board (power_on (MD_OnePin_new 2 8 8 0 0)))) + 640 /\
   0 <= 1024 < 2 ^ 24 /\
   clock_us host_wrapping
     (S (S (S (ticks (board (power_on (MD_OnePin_new 2 8 8 0 0))))))) =
     clock_us host_wrapping
       (S (S (ticks (board (power_on (MD_OnePin_new 2 8 8 0 0)))))) + 1024)
  /\
  _switchTime
    (self (snd (begin host_wrapping (power_on (MD_OnePin_new 2 8 8 0 0)))))
    = 640 / 128 /\
  _writeTime
    (self (snd (begin host_wrapping (power_on (MD_OnePin_new 2 8 8 0 0)))))
    = 1024 / 256.
Proof.
  assert (H1 : 0 <= 640 < 2 ^ 23) by (cbv; split; [discriminate | reflexivity]).
  assert (H2 : 0 <= 1024 < 2 ^ 24) by (cbv; split; [discriminate | reflexivity]).
  split; [exact (conj H1 (conj eq_refl (conj H2 eq_refl))) |].
  exact (begin_measures_elapsed host_wrapping
           (power_on (MD_OnePin_new 2 8 8 0 0)) 640 1024
           H1 eq_refl H2 eq_refl).
Defined.

(** ** What the calls never do *)

Lemma calibration_events_quiet (h : Host) (pin : Z) (k n1 n2 : nat) :
  filter is_delay (calibration_events h pin k n1 n2) = [] /\
  filter is_sample (calibration_events h pin k n1 n2) = [] /\
  length (filter is_clock (calibration_events h pin k n1 n2)) = 4%nat.
Proof.
  assert (Hq : forall (f : Event -> bool) (es : list Event) (n : nat),
             filter f es = [] -> filter f (concat (repeat es n)) = []).
  { intros f es n He. induction n as [| n IH]; [reflexivity |].
    cbn [repeat concat]. rewrite filter_app, He, IH. reflexivity. }
  unfold calibration_events.
  rewrite !filter_app, !Hq by reflexivity.
  repeat split.
Qed.

(** X14: [begin] only exercises the pin and the clock: it issues no delay,
    takes no input sample, and reads the microsecond counter exactly four
    times. *)
Theorem begin_never_waits_or_samples (h : Host) (w : World) :
  filter is_delay (new_events w (snd (begin h w))) = [] /\
  filter is_sample (new_events w (snd (begin h w))) = [] /\
  length (filter is_clock (new_events w (snd (begin h w)))) = 4%nat /\
  reads (board (snd (begin h w))) = reads (board w) /\
  ticks (board (snd (begin h w))) = (ticks (board w) + 4)%nat.
Proof.
  rewrite (new_events_app _ _ _ (proj1 (proj2 (begin_run h w)))).
  unfold begin_events.
  destruct (calibration_events_quiet h (_pin (self w)) (ticks (board w))
              64 128) as (Hd & Hs & Hc).
  destruct (begin_footprint h w) as (Hr & Hk & _).
  auto.
Qed.

Lemma filter_render (f : Event -> bool) (im : IntModel) (o : MD_OnePin)
      (ss : list Slot) :
  (forall s : Slot, filter f (slot_events im o s) = []) ->
  filter f (render im o ss) = [].
Proof.
  intros Hf. induction ss as [| s ss IH]; [reflexivity |].
  unfold render in *. cbn [flat_map]. rewrite filter_app, Hf, IH.
  reflexivity.
Qed.

Lemma slot_events_no_clock (im : IntModel) (o : MD_OnePin) (s : Slot) :
  filter is_clock (slot_events im o s) = [].
Proof. destruct s as [p | [|] | b]; reflexivity. Qed.

Lemma write_slot_events_plain (im : IntModel) (o : MD_OnePin) (b : bool) :
  filter is_switch (slot_events im o (SWrite b)) = [] /\
  filter is_sample (slot_events im o (SWrite b)) = [].
Proof. destruct b; split; reflexivity. Qed.

Lemma filter_render_writes (f : Event -> bool) (im : IntModel)
      (o : MD_OnePin) (bs : list bool) :
  (forall b : bool, filter f (slot_events im o (SWrite b)) = []) ->
  filter f (render im o (map SWrite bs)) = [].
Proof.
  intros Hf. induction bs as [| b bs IH]; [reflexivity |].
  unfold render in *. cbn [map flat_map]. rewrite filter_app, Hf, IH.
  reflexivity.
Qed.

(** X15: [write] and [read] never read the microsecond counter, and a
    [write] that omits the reset never changes the pin's direction and
    never samples the line: its trace holds only level writes and
    delays. *)
Theorem data_calls_never_read_clock (h : Host) (w : World) (data : Z)
        (noReset : bool) :
  filter is_clock (new_events w (snd (write h data noReset w))) = [] /\
  ticks (board (snd (write h data noReset w))) = ticks (board w) /\
  filter is_clock (new_events w (snd (read h noReset w))) = [] /\
  ticks (board (snd (read h noReset w))) = ticks (board w) /\
  filter is_switch (new_events w (snd (write h data true w))) = [] /\
  filter is_sample (new_events w (snd (write h data true w))) = [] /\
  reads (board (snd (write h data true w))) = reads (board w).
Proof.
  split.
  { rewrite (new_events_app _ _ _
               (proj1 (proj2 (proj2 (write_run h data noReset w))))).
    apply filter_render, slot_events_no_clock. }
  split; [apply write_footprint |].
  split.
  { destruct (read_run h noReset w) as (_ & _ & Hc).
    destruct (negb noReset && negb (presence_seen h noReset w)).
    - destruct Hc as [_ Ht]. rewrite (new_events_app _ _ _ Ht).
      apply filter_render, slot_events_no_clock.
    - destruct Hc as (bs & _ & _ & Ht). rewrite (new_events_app _ _ _ Ht).
      apply filter_render, slot_events_no_clock. }
  split; [apply read_footprint |].
  pose proof (proj1 (proj2 (proj2 (write_run h data true w)))) as Ht.
  cbv zeta in Ht. unfold write_slots in Ht. cbn [app orb] in Ht.
  rewrite (new_events_app _ _ _ Ht).
  split; [apply filter_render_writes; intros b;
          apply write_slot_events_plain |].
  split; [apply filter_render_writes; intros b;
          apply write_slot_events_plain |].
  rewrite (proj1 (write_footprint h data true w)). apply Nat.add_0_r.
Qed.

(** ** Calls in sequence *)

Lemma render_app (im : IntModel) (o : MD_OnePin) (ss ts : list Slot) :
  render im o (ss ++ ts) = render im o ss ++ render im o ts.
Proof. unfold render. apply flat_map_app. Qed.

(** X16: a [write] followed by a [write] that omits the reset puts one
    Reset/Presence slot on the wire, then the first packet if SEC was
    found, then the second packet in any case; the second call returns the
    presence the first one recorded. *)
Theorem chained_write_shares_reset (h : Host) (w : World) (a b : Z) :
  fst (write h b true (snd (write h a false w))) = fst (resetComm h w) /\
  slots_of h w (snd (write h b true (snd (write h a false w)))) =
    Some (SReset (fst (resetComm h w))
          :: (if fst (resetComm h w)
              then map SWrite
                     (packet_bits (Z.to_nat (_bppPri (self w))) (u32 a))
              else [])
             ++ map SWrite
                  (packet_bits (Z.to_nat (_bppPri (self w))) (u32 b))).
Proof.
  destruct (write_run h a false w) as (_ & Hs1 & Ht1 & _).
  unfold presence_seen in Hs1, Ht1.
  generalize dependent (snd (write h a false w)).
  generalize (fst (resetComm h w)).
  intros p w1 Hs1 Ht1.
  destruct (write_run h b true w1) as (Hr2 & _ & Ht2 & _).
  unfold presence_seen in Hr2, Ht2. split.
  - rewrite Hr2, Hs1. reflexivity.
  - apply slots_of_render.
    rewrite Ht2, Ht1, Hs1, <- app_assoc. f_equal.
    unfold write_slots. cbn [orb app _bppPri with_presence].
    rewrite render_presence, <- render_app. reflexivity.
Qed.

(** X17: on an idle line, one that shows HIGH at every data sample (no SEC
    driving it), a [read] that omits the reset returns all ones in the
    configured width, 2^_bppSec - 1, for widths up to 32. *)
Theorem read_idle_line_all_ones (h : Host) (w : World) :
  0 <= _bppSec (self w) <= 32 ->
  (forall i : nat, (i < Z.to_nat (_bppSec (self w)))%nat ->
     line_level h (reads (board w) + i) = HIGH) ->
  fst (read h true w) = 2 ^ _bppSec (self w) - 1.
Proof.
  intros Hn Hhigh.
  rewrite (read_wire_value h true w (-1) Hn (or_introl eq_refl)).
  - pose proof (Z.pow_pos_nonneg 2 (_bppSec (self w)) ltac:(lia) ltac:(lia)).
    symmetry. apply Z.mod_unique with (q := -1); lia.
  - intros i Hi. rewrite Z.bits_m1 by lia. rewrite Nat.add_0_r.
    apply Hhigh, Hi.
Qed.

Lemma read_idle_line_all_ones_witness :
  (0 <= _bppSec (self (power_on (MD_OnePin_new 2 8 8 0 0))) <= 32 /\
   (forall i : nat,
       (i < Z.to_nat (_bppSec (self (power_on (MD_OnePin_new 2 8 8 0 0)))))%nat ->
       line_level host_no_sec
         (reads (board (power_on (MD_OnePin_new 2 8 8 0 0))) + i) = HIGH)) /\
  fst (read host_no_sec true (power_on (MD_OnePin_new 2 8 8 0 0))) =
    2 ^ _bppSec (self (power_on (MD_OnePin_new 2 8 8 0 0))) - 1.
Proof.
  assert (Hn : 0 <= _bppSec (self (power_on (MD_OnePin_new 2 8 8 0 0))) <= 32)
    by (cbv; split; discriminate).
  assert (Hh : forall i : nat,
             (i < Z.to_nat
                    (_bppSec (self (power_on (MD_OnePin_new 2 8 8 0 0)))))%nat ->
             line_level host_no_sec
               (reads (board (power_on (MD_OnePin_new 2 8 8 0 0))) + i)
             = HIGH) by (intros i _; reflexivity).
  split; [exact (conj Hn Hh) |].
  exact (read_idle_line_all_ones host_no_sec
           (power_on (MD_OnePin_new 2 8 8 0 0)) Hn Hh).
Defined.

(** ** MD_OnePin_Protocol.h: the SEC packet type *)

(** X18: for every BPP_SEC in 1..32 the header selects a SEC packet type
    that holds BPP_SEC bits, and it is the narrowest of the three types that
    does. *)
Theorem sec_packet_type_fits (bpp_sec : Z) :
  1 <= bpp_sec <= 32 ->
  exists t : SecPacketType,
    opSecPacket_t bpp_sec = Some t /\
    bpp_sec <= sec_type_bits t /\
    (forall t' : SecPacketType,
        bpp_sec <= sec_type_bits t' -> sec_type_bits t <= sec_type_bits t').
Proof.
  intros Hb. unfold opSecPacket_t.
  destruct (Z.ltb_spec 0 bpp_sec); [| lia].
  destruct (Z.leb_spec bpp_sec 8); cbn [andb].
  - exists SecUint8. split; [reflexivity |]. split; [cbn; lia |].
    intros [| |] _; cbn; lia.
  - destruct (Z.leb_spec bpp_sec 16).
    + exists SecUint16. split; [reflexivity |]. split; [cbn; lia |].
      intros [| |]; cbn; lia.
    + destruct (Z.leb_spec bpp_sec 32); [| lia].
      exists SecUint32. split; [reflexivity |]. split; [cbn; lia |].
      intros [| |]; cbn; lia.
Qed.

Lemma sec_packet_type_fits_witness :
  1 <= BPP_SEC <= 32 /\
  exists t : SecPacketType,
    opSecPacket_t BPP_SEC = Some t /\
    BPP_SEC <= sec_type_bits t /\
    (forall t' : SecPacketType,
        BPP_SEC <= sec_type_bits t' -> sec_type_bits t <= sec_type_bits t').
Proof.
  assert (Hb : 1 <= BPP_SEC <= 32) by (cbv; split; discriminate).
  split; [exact Hb |]. exact (sec_packet_type_fits BPP_SEC Hb).
Defined.

(** X19: the header rejects BPP_SEC at compile time exactly when it exceeds
    32; a BPP_SEC of zero or below is not rejected but falls through to the
    16-bit type. *)
Theorem sec_packet_type_rejection (bpp_sec : Z) :
  (opSecPacket_t bpp_sec = None <-> 32 < bpp_sec) /\
  (opSecPacket_t bpp_sec = Some SecUint16 <->
   bpp_sec <= 0 \/ 8 < bpp_sec <= 16).
Proof.
  unfold opSecPacket_t.
  destruct (Z.ltb_spec 0 bpp_sec); destruct (Z.leb_spec bpp_sec 8);
    cbn [andb];
    destruct (Z.leb_spec bpp_sec 16); destruct (Z.leb_spec bpp_sec 32);
    (split; split; intros E; try discriminate E; try reflexivity; lia).
Qed.

(** ** MD_OnePin_Protocol.h: the table as a function of the slot *)

(** X20: the table the header derives from OPT is sound for every slot
    length from 2 microseconds up to the largest whose reset pulse fits 16
    bits: a Write-1 slot lasts T and a Write-0 slot 2T, the SEC detection
    thresholds separate the four pulse lengths PRI emits (Write-1, Write-0,
    Read, Reset), and both of PRI's sampling points fall inside the time SEC
    holds the line; at OPT = 80 the table is the one the engine uses. *)
Theorem slot_table_separates_pulses (im : IntModel) (T : Z) :
  2 <= T -> 5 * T < 65536 ->
  t_wr1_signal (slot_table im T) + t_wr1_pause (slot_table im T) = T /\
  t_wr0_signal (slot_table im T) + t_wr0_pause (slot_table im T) = 2 * T /\
  (t_wr1_signal (slot_table im T) < t_wr1_detect (slot_table im T)
     <= t_wr0_signal (slot_table im T)) /\
  (t_wr0_signal (slot_table im T) < t_wr0_detect (slot_table im T)
     <= t_rd_init (slot_table im T)) /\
  (t_rd_init (slot_table im T) < t_rd_detect (slot_table im T)
     <= t_rst_signal (slot_table im T)) /\
  t_rd_sample (slot_table im T) < t_rd0_signal (slot_table im T) /\
  t_rst_prs_sample (slot_table im T) < t_rst_presence (slot_table im T) /\
  slot_table im OPT =
    mkSlotTable OPT_RST_SIGNAL OPT_RST_PRESENCE OPT_RST_PRS_SAMPLE OPT_RST_END
      OPT_WR1_SIGNAL OPT_WR1_PAUSE OPT_WR1_DETECT
      OPT_WR0_SIGNAL OPT_WR0_DETECT OPT_WR0_PAUSE
      OPT_RD_INIT OPT_RD_DETECT OPT_RD0_SIGNAL OPT_RD_SAMPLE OPT_RD_PAUSE.
Proof.
  intros H2 H5.
  assert (Hu : forall x : Z, 0 <= x < 65536 -> u16 x = x)
    by (intros x Hx; apply Z.mod_small; exact Hx).
  assert (Hm : forall k : Z, 0 <= k <= 5 -> int_times im k T = k * T).
  { intros k Hk. destruct im; cbn [int_times]; [apply Hu; nia | reflexivity]. }
  assert (Hd2 : 0 <= T / 2 /\ 2 * (T / 2) <= T < 2 * (T / 2) + 2)
    by (Z.div_mod_to_equations; lia).
  assert (Hd3 : 0 <= 3 * T / 2 /\ 2 * (3 * T / 2) <= 3 * T < 2 * (3 * T / 2) + 2)
    by (Z.div_mod_to_equations; lia).
  assert (Hd5 : 0 <= 5 * T / 2 /\ 2 * (5 * T / 2) <= 5 * T < 2 * (5 * T / 2) + 2)
    by (Z.div_mod_to_equations; lia).
  assert (Hs : forall a b : Z, 0 <= b <= a -> a < 65536 ->
                 u16 (int_minus im a b) = a - b).
  { intros a b Hb Ha. destruct im; cbn [int_minus];
      repeat rewrite (Hu (a - b)) by lia; reflexivity. }
  unfold slot_table.
  cbn [t_rst_signal t_rst_presence t_rst_prs_sample t_rst_end t_wr1_signal
       t_wr1_pause t_wr1_detect t_wr0_signal t_wr0_detect t_wr0_pause
       t_rd_init t_rd_detect t_rd0_signal t_rd_sample t_rd_pause].
  rewrite !Hm by lia.
  rewrite (Hu (T / 2)), (Hu (3 * T / 2)), (Hu (5 * T / 2)), (Hu (5 * T)),
    (Hu (3 * T)), (Hu (2 * T)) by lia.
  rewrite !Hs by lia.
  repeat split; try lia.
  destruct im; reflexivity.
Qed.

Lemma slot_table_separates_pulses_witness :
  (2 <= OPT /\ 5 * OPT < 65536) /\
  t_wr1_signal (slot_table Int16 OPT) + t_wr1_pause (slot_table Int16 OPT)
    = OPT /\
  t_wr0_signal (slot_table Int16 OPT) + t_wr0_pause (slot_table Int16 OPT)
    = 2 * OPT.
Proof.
  assert (H2 : 2 <= OPT) by (cbv; discriminate).
  assert (H5 : 5 * OPT < 65536) by reflexivity.
  split; [exact (conj H2 H5) |].
  destruct (slot_table_separates_pulses Int16 OPT H2 H5) as (E1 & E2 & _).
  exact (conj E1 E2).
Defined.

(** ** Query and answer *)

(** X21: a [write] followed by a [read] that omits the reset shares the one
    Reset/Presence slot of the [write]; the [read] performs its [_bppSec]
    Read slots whether or not SEC was found, so after a [write] that
    returned false it still samples the line and returns what it saw
    instead of the absence sentinel. *)
Theorem write_then_read_shares_reset (h : Host) (w : World) (a : Z) :
  exists bs : list bool,
    length bs = Z.to_nat (_bppSec (self w)) /\
    fst (read h true (snd (write h a false w))) = accumulate 1 0 bs /\
    slots_of h w (snd (read h true (snd (write h a false w)))) =
      Some (SReset (fst (resetComm h w))
            :: (if fst (resetComm h w)
                then map SWrite
                       (packet_bits (Z.to_nat (_bppPri (self w))) (u32 a))
                else [])
               ++ map SRead bs) /\
    fst (isPresent (snd (read h true (snd (write h a false w))))) =
      fst (resetComm h w).
Proof.
  destruct (write_run h a false w) as (_ & Hs1 & Ht1 & _).
  unfold presence_seen in Hs1, Ht1.
  generalize dependent (snd (write h a false w)).
  generalize (fst (resetComm h w)).
  intros p w1 Hs1 Ht1.
  destruct (read_run h true w1) as (Hs2 & _ & Hc). cbn [negb andb] in Hc.
  destruct Hc as (bs & Hl & Hr & Ht2).
  exists bs. split; [rewrite Hl, Hs1; reflexivity |]. split; [exact Hr |].
  split.
  - apply slots_of_render.
    rewrite Ht2, Ht1, Hs1, <- app_assoc. f_equal.
    unfold write_slots, read_slots. cbn [orb app].
    rewrite render_presence, <- render_app. reflexivity.
  - unfold isPresent, member. cbn [fst]. rewrite Hs2, Hs1. reflexivity.
Qed.

(** ** Delays that do not wrap *)

Lemma slot_delays_bounded (im : IntModel) (o : MD_OnePin) (s : Slot) :
  0 <= _writeTime o <= 40 -> 0 <= _switchTime o <= 40 ->
  Forall (fun d => 0 <= d <= 400) (slot_delays im o s).
Proof.
  intros Hw Hs. destruct protocol_values as
    (E1 & E2 & E3 & E4 & E5 & E6 & E7 & E8 & E9 & E10).
  destruct s as [p | [|] | b]; unfold slot_delays;
    rewrite ?E1, ?E2, ?E3, ?E4, ?E5, ?E6, ?E7, ?E8, ?E9, ?E10;
    rewrite !delay_arg_exact by lia;
    repeat (apply Forall_cons; [lia |]); apply Forall_nil.
Qed.

Lemma render_delays_bounded (im : IntModel) (o : MD_OnePin) (ss : list Slot) :
  0 <= _writeTime o <= 40 -> 0 <= _switchTime o <= 40 ->
  Forall (fun d => 0 <= d <= 400) (delays_of (render im o ss)).
Proof.
  intros Hw Hs. rewrite delays_of_render.
  induction ss as [| s ss IH]; [apply Forall_nil |].
  cbn [flat_map]. apply Forall_app. split; [| exact IH].
  apply slot_delays_bounded; assumption.
Qed.

(** X22: calibration values of at most 40 microseconds are enough to keep
    every delay in range: no [delayMicroseconds] call of [write] or [read]
    then receives a wrapped-around argument, each argument lying between 0
    and the 400 microseconds of the reset pulse. *)
Theorem small_corrections_never_wrap (h : Host) (w : World) (data : Z)
        (noReset : bool) :
  0 <= _writeTime (self w) <= 40 ->
  0 <= _switchTime (self w) <= 40 ->
  Forall (fun d => 0 <= d <= 400)
    (delays_of (new_events w (snd (write h data noReset w)))) /\
  Forall (fun d => 0 <= d <= 400)
    (delays_of (new_events w (snd (read h noReset w)))).
Proof.
  intros Hw Hs. split.
  - rewrite (new_events_app _ _ _
               (proj1 (proj2 (proj2 (write_run h data noReset w))))).
    apply render_delays_bounded; assumption.
  - destruct (read_run h noReset w) as (_ & _ & Hc).
    destruct (negb noReset && negb (presence_seen h noReset w)).
    + destruct Hc as [_ Ht]. rewrite (new_events_app _ _ _ Ht).
      apply render_delays_bounded; assumption.
    + destruct Hc as (bs & _ & _ & Ht). rewrite (new_events_app _ _ _ Ht).
      apply render_delays_bounded; assumption.
Qed.

Lemma small_corrections_never_wrap_witness :
  (0 <= _writeTime
          (self (snd (begin host_sec_b4
                        (power_on (MD_OnePin_new 2 8 8 0 0))))) <= 40 /\
   0 <= _switchTime
          (self (snd (begin host_sec_b4
                        (power_on (MD_OnePin_new 2 8 8 0 0))))) <= 40) /\
  Forall (fun d => 0 <= d <= 400)
    (delays_of
       (new_events
          (snd (begin host_sec_b4 (power_on (MD_OnePin_new 2 8 8 0 0))))
          (snd (write host_sec_b4 90 false
                  (snd (begin host_sec_b4
                          (power_on (MD_OnePin_new 2 8 8 0 0)))))))).
Proof.
  assert (Hw : 0 <= _writeTime
                      (self (snd (begin host_sec_b4
                                    (power_on (MD_OnePin_new 2 8 8 0 0)))))
               <= 40) by (vm_compute; split; discriminate).
  assert (Hs : 0 <= _switchTime
                      (self (snd (begin host_sec_b4
                                    (power_on (MD_OnePin_new 2 8 8 0 0)))))
               <= 40) by (vm_compute; split; discriminate).
  split; [exact (conj Hw Hs) |].
  exact (proj1 (small_corrections_never_wrap host_sec_b4
                  (snd (begin host_sec_b4
                          (power_on (MD_OnePin_new 2 8 8 0 0))))
                  90 false Hw Hs)).
Defined.
